(** * Semantic analysis of views, nests, parameters and numeric literals

    A shallow embedding of the view ("turtle") resolver, the bare-reference
    nest resolver, the parameter space entries and the numeric-literal
    classifier of the Malloy translator, with the properties proved about
    them.

    Layout: the data model, the effect monad, the embedded functions, then
    the theorems. *)

From Stdlib Require Import List String Ascii Bool Arith ZArith Lia.
From Stdlib Require Import QArith Qpower.
From Stdlib Require Import Floats.SpecFloat.
Import ListNotations.

Local Close Scope Q_scope.
Local Open Scope string_scope.
Local Open Scope list_scope.

Set Implicit Arguments.
Set Warnings "-register-all".

(* ================================================================== *)
(** * The model types ([model/malloy_types]) *)
(* ================================================================== *)

(** Modelled from the spec: the three-way classification of expressions
    (§3, [TypeDesc]); the declaration of [ExpressionType] and of the three
    predicates below lives in the model package, which is not part of the
    sources at hand. *)
Inductive ExpressionType : Type :=
| scalar
| aggregate
| analytic.

(** Modelled from the spec: [expressionIsScalar] recognises the scalar
    classification. *)
Definition expressionIsScalar (e : ExpressionType) : bool :=
  match e with scalar => true | _ => false end.

(** Modelled from the spec: [expressionIsAggregate] recognises the aggregate
    classification. *)
Definition expressionIsAggregate (e : ExpressionType) : bool :=
  match e with aggregate => true | _ => false end.

(** Modelled from the spec: [expressionIsAnalytic] recognises the analytic
    classification. *)
Definition expressionIsAnalytic (e : ExpressionType) : bool :=
  match e with analytic => true | _ => false end.

(** [TypeDesc]: a data type tag and a classification. *)
Record TypeDesc : Type := Build_TypeDesc {
  dataType : string;
  expressionType : ExpressionType
}.

(** A source position; every AST node carries one and diagnostics are
    attached to it. *)
Definition DocumentLocation : Type := nat.

(** [Annotation]: the notes of a declaration and, optionally, the annotation
    it inherits from the view it extends. *)
Inductive Annotation : Type :=
| Build_Annotation (inherits : option Annotation) (notes : list string).

(** One fragment of a compiled expression; [{type: 'field', path}] is
    [FieldFragment path]. *)
Inductive Fragment : Type :=
| StringFragment (s : string)
| FieldFragment (path : string).

(** An atomic (leaf) field definition: [type] is the data type tag, [as] the
    optional alias, [e] the optional defining expression. *)
Record AtomicFieldDef : Type := Build_AtomicFieldDef {
  af_type : string;
  af_name : string;
  af_as : option string;
  af_expressionType : option ExpressionType;
  af_e : option (list Fragment)
}.

(** The kind tag of a pipeline stage.  A [partial] stage is one that carries
    none of the defining operation kinds. *)
Inductive SegmentType : Type :=
| reduce
| project
| index
| raw
| partial.

(** [QueryFieldDef] is a field name, an atomic field definition or a view;
    a [TurtleDef] is a named pipeline; a [PipeSegment] is one stage. *)
Inductive QueryFieldDef : Type :=
| QueryFieldName (ref : string)
| QueryFieldAtomic (f : AtomicFieldDef)
| QueryFieldTurtle (t : TurtleDef)
with TurtleDef : Type :=
| Build_TurtleDef (name : string) (as_ : option string)
    (segments : list PipeSegment) (annotation : option Annotation)
    (location : option DocumentLocation)
with PipeSegment : Type :=
| Build_PipeSegment (type : SegmentType) (fields : list QueryFieldDef).

Definition td_name (t : TurtleDef) : string :=
  let 'Build_TurtleDef n _ _ _ _ := t in n.
Definition td_as (t : TurtleDef) : option string :=
  let 'Build_TurtleDef _ a _ _ _ := t in a.
Definition td_pipeline (t : TurtleDef) : list PipeSegment :=
  let 'Build_TurtleDef _ _ p _ _ := t in p.
Definition td_annotation (t : TurtleDef) : option Annotation :=
  let 'Build_TurtleDef _ _ _ a _ := t in a.
Definition td_location (t : TurtleDef) : option DocumentLocation :=
  let 'Build_TurtleDef _ _ _ _ l := t in l.

Definition seg_type (s : PipeSegment) : SegmentType :=
  let 'Build_PipeSegment t _ := s in t.
Definition seg_fields (s : PipeSegment) : list QueryFieldDef :=
  let 'Build_PipeSegment _ f := s in f.

(** [{...t, pipeline: p}] and [t.as = a] on a view. *)
Definition td_with_pipeline (t : TurtleDef) (p : list PipeSegment) : TurtleDef :=
  let 'Build_TurtleDef n a _ an l := t in Build_TurtleDef n a p an l.
Definition td_with_as (t : TurtleDef) (a : string) : TurtleDef :=
  let 'Build_TurtleDef n _ p an l := t in Build_TurtleDef n (Some a) p an l.

(** [Pipeline]: the interface of which [TurtleDef] is an extension. *)
Record Pipeline : Type := Build_Pipeline {
  pipeline : list PipeSegment
}.

(** A view passed where a pipeline is expected. *)
Definition turtleAsPipeline (t : TurtleDef) : Pipeline :=
  {| pipeline := td_pipeline t |}.

(** [isTurtle]: the definition is present, is not a bare name, and is tagged
    ['turtle']. *)
Definition isTurtle (fd : option QueryFieldDef) : option TurtleDef :=
  match fd with
  | Some (QueryFieldTurtle t) => Some t
  | _ => None
  end.

(* ================================================================== *)
(** * Effects: diagnostics, annotations and faults *)
(* ================================================================== *)

(** A diagnostic is a message attached to the source position of the AST
    node it was logged on. *)
Inductive Diagnostic : Type :=
| Log (at_ : option DocumentLocation) (message : string)
| DuplicateName (at_ : option DocumentLocation) (name : string).

(** The state threaded through resolution: the accumulated diagnostics (most
    recent last), the [note] of every declaration object (addressed by the
    object's identity), and the experiments enabled by the compiler flags. *)
Record State : Type := Build_State {
  diagnostics : list Diagnostic;
  notes : nat -> option Annotation;
  experiments : list string
}.

(** Faults: [internalError], a JavaScript [Error], and the exhaustion of the
    recursion budget of the model. *)
Inductive Fault : Type :=
| InternalError (message : string)
| JsError (message : string)
| OutOfFuel.

Inductive Outcome (A : Type) : Type :=
| Returns (a : A) (st : State)
| Throws (f : Fault) (st : State).
Arguments Returns {A} a st.
Arguments Throws {A} f st.

Definition M (A : Type) : Type := State -> Outcome A.

Definition ret {A : Type} (a : A) : M A := fun st => Returns a st.

Definition bind {A B : Type} (m : M A) (k : A -> M B) : M B :=
  fun st =>
    match m st with
    | Returns a st' => k a st'
    | Throws f st' => Throws f st'
    end.

Definition throw {A : Type} (f : Fault) : M A := fun st => Throws f st.

Notation "x <- m ;; k" := (bind m (fun x => k))
  (at level 61, m at next level, right associativity).
Notation "m ;;; k" := (bind m (fun _ => k))
  (at level 61, right associativity).

(** The state with one more diagnostic. *)
Definition addDiagnostic (st : State) (d : Diagnostic) : State :=
  {| diagnostics := diagnostics st ++ [d];
     notes := notes st;
     experiments := experiments st |}.

(** [node.log(message)]. *)
Definition log (at_ : option DocumentLocation) (message : string) : M unit :=
  fun st => Returns tt (addDiagnostic st (Log at_ message)).

(** The state and the diagnostics an outcome leaves behind. *)
Definition stateOf {A : Type} (o : Outcome A) : State :=
  match o with
  | Returns _ st => st
  | Throws _ st => st
  end.

Definition diagnosticsOf {A : Type} (o : Outcome A) : list Diagnostic :=
  diagnostics (stateOf o).

(** The value an outcome returns, when it returns. *)
Definition returned {A : Type} (o : Outcome A) : option A :=
  match o with
  | Returns a _ => Some a
  | Throws _ _ => None
  end.

(** Modelled from the spec: [inExperiment(id, silent)] tells whether the
    experimental mode [id] is enabled (§4.4, "the scalar lens experimental
    mode is enabled"); the method lives on the AST node base class, which is
    not part of the sources at hand.  Every call in the sources is silent,
    and a silent call logs nothing. *)
Definition enabled (experimentId : string) (st : State) : bool :=
  existsb (String.eqb experimentId) (experiments st).

Definition inExperiment (experimentId : string) (silent : bool) : M bool :=
  fun st => Returns (enabled experimentId st) st.

(** Reading and writing the [note] of the declaration object [oid]. *)
Definition getNote (oid : nat) : M (option Annotation) :=
  fun st => Returns (notes st oid) st.

Definition setNote (oid : nat) (a : Annotation) : M unit :=
  fun st =>
    Returns tt {| diagnostics := diagnostics st;
                  notes := fun o => if Nat.eqb o oid then Some a else notes st o;
                  experiments := experiments st |}.

(* ================================================================== *)
(** * Parameter space entries ([space-param]) *)
(* ================================================================== *)

(** The AST node of a declared parameter: its [type] may be absent. *)
Record HasParameter : Type := Build_HasParameter {
  hp_name : string;
  hp_type : option string
}.

(** A concrete parameter of the model. *)
Record ModelParameter : Type := Build_ModelParameter {
  p_name : string;
  p_type : string
}.

Inductive SpaceParam : Type :=
| AbstractParameter (astParam : HasParameter)
| DefinedParameter (paramDef : ModelParameter).

(** JavaScript [a || b] on an optional string: an absent or empty [a] is
    falsy. *)
Definition or_string (a : option string) (b : string) : string :=
  match a with
  | Some EmptyString => b
  | Some s => s
  | None => b
  end.

Definition typeDesc (p : SpaceParam) : TypeDesc :=
  match p with
  | AbstractParameter astParam =>
      let type := or_string (hp_type astParam) "unknown" in
      {| dataType := type; expressionType := scalar |}
  | DefinedParameter paramDef =>
      {| dataType := p_type paramDef; expressionType := scalar |}
  end.

(* ================================================================== *)
(** * Field references *)
(* ================================================================== *)

(** A dotted reference: the path segments, the dotted text ([refString]),
    the text the node prints as in a template literal, and the position. *)
Record FieldReference : Type := Build_FieldReference {
  list_ : list string;
  refString : string;
  toString : string;
  fr_location : option DocumentLocation
}.

(** A bare-reference nest: the node is itself a reference with the segments
    of [name], the reference it was built from. *)
Record NestReference : Type := Build_NestReference {
  nr_name : FieldReference;
  nr_location : option DocumentLocation
}.

(** JavaScript truthiness of an optional string: present and not empty. *)
Definition truthy (s : option string) : option string :=
  match s with
  | Some EmptyString => None
  | Some t => Some t
  | None => None
  end.

(* ================================================================== *)
(** * Partial stages ([query-utils]) *)
(* ================================================================== *)

Definition isPartialStage (s : PipeSegment) : bool :=
  match seg_type s with
  | partial => true
  | _ => false
  end.

Record PartialStages : Type := Build_PartialStages {
  hasPartials : bool;
  ps_pipeline : list PipeSegment
}.

(** Modelled from the spec: [detectAndRemovePartialStages] (§4.4.2) scans the
    finished pipeline, tells whether it holds a partial stage, and strips the
    partial stages from it; the function lives in the query utilities, which
    are not part of the sources at hand. *)
Definition detectAndRemovePartialStages (p : list PipeSegment) : PartialStages :=
  {| hasPartials := existsb isPartialStage p;
     ps_pipeline := filter (fun s => negb (isPartialStage s)) p |}.

(** The number of partial stages of a pipeline. *)
Definition countPartialStages (p : list PipeSegment) : nat :=
  List.length (filter isPartialStage p).


(* ================================================================== *)
(** * Numeric literals ([expr-number]) *)
(* ================================================================== *)

Module ExprNumber.

Local Open Scope Z_scope.

(** ** The number values of the language

    A number is an IEEE 754 binary64 value, [spec_float] at precision 53
    and maximal exponent 1024. *)
Definition prec : Z := 53.
Definition emax : Z := 1024.

(** The correctly rounded (to nearest, ties to even) binary64 value of the
    rational [num / den], for [0 <= num] and [0 < den]. *)
Definition roundQuotient (negative : bool) (num den : Z) : spec_float :=
  match num, den with
  | Zpos n, Zpos d =>
      SFdiv prec emax (S754_finite negative n 0) (S754_finite false d 0)
  | _, _ => S754_zero negative
  end.

(** The value of [m * 10 ^ e]. *)
Definition roundDecimal (negative : bool) (m e : Z) : spec_float :=
  if 0 <=? e then roundQuotient negative (m * 10 ^ e) 1
  else roundQuotient negative m (10 ^ (- e)).

(** ** [Number(text)]: the conversion of a string to a number

    The text is a sequence of code units below 256.  White space is TAB,
    LF, VT, FF, CR, SP and NBSP. *)
Definition isWhiteSpace (c : ascii) : bool :=
  let n := Z.of_nat (nat_of_ascii c) in
  ((9 <=? n) && (n <=? 13)) || (n =? 32) || (n =? 160).

Fixpoint trimStart (s : string) : string :=
  match s with
  | String c s' => if isWhiteSpace c then trimStart s' else s
  | EmptyString => EmptyString
  end.

(** Drops the white space at the end: a character is kept when something
    that is kept follows it or when it is not white space. *)
Fixpoint trimEnd (s : string) : string :=
  match s with
  | String c s' =>
      match trimEnd s' with
      | EmptyString => if isWhiteSpace c then EmptyString
                       else String c EmptyString
      | r => String c r
      end
  | EmptyString => EmptyString
  end.

Definition trim (s : string) : string := trimEnd (trimStart s).

(** The value of a digit in the given radix, letters in either case. *)
Definition digitOf (radix : Z) (c : ascii) : option Z :=
  let n := Z.of_nat (nat_of_ascii c) in
  let d :=
    if (48 <=? n) && (n <=? 57) then Some (n - 48)
    else if (97 <=? n) && (n <=? 122) then Some (n - 87)
    else if (65 <=? n) && (n <=? 90) then Some (n - 55)
    else None in
  match d with
  | Some v => if v <? radix then Some v else None
  | None => None
  end.

(** Reads the longest prefix of digits: the accumulated value, the number
    of digits read and the rest of the text. *)
Fixpoint readDigits (radix : Z) (s : string) (acc : Z) (count : Z)
  : Z * Z * string :=
  match s with
  | String c s' =>
      match digitOf radix c with
      | Some d => readDigits radix s' (radix * acc + d) (count + 1)
      | None => (acc, count, s)
      end
  | EmptyString => (acc, count, s)
  end.

(** A sign, when there is one, and the rest. *)
Definition readSign (s : string) : bool * string :=
  match s with
  | String "-"%char s' => (true, s')
  | String "+"%char s' => (false, s')
  | _ => (false, s)
  end.

(** [0x], [0o] and [0b] literals: digits only, no sign. *)
Definition readNonDecimal (s : string) : option spec_float :=
  match s with
  | String "0"%char (String c s') =>
      let radix :=
        match c with
        | "x"%char | "X"%char => Some 16
        | "o"%char | "O"%char => Some 8
        | "b"%char | "B"%char => Some 2
        | _ => None
        end in
      match radix with
      | Some r =>
          match readDigits r s' 0 0 with
          | (v, count, EmptyString) =>
              if 0 <? count then Some (roundQuotient false v 1)
              else Some S754_nan
          | _ => Some S754_nan
          end
      | None => None
      end
  | _ => None
  end.

(** The exponent part: nothing, or [e] or [E], an optional sign and at
    least one digit. *)
Definition readExponent (s : string) : option Z :=
  match s with
  | EmptyString => Some 0
  | String c s' =>
      match c with
      | "e"%char | "E"%char =>
          let '(negative, s1) := readSign s' in
          match readDigits 10 s1 0 0 with
          | (v, count, EmptyString) =>
              if 0 <? count then Some (if negative then - v else v)
              else None
          | _ => None
          end
      | _ => None
      end
  end.

(** Decimal literals: an optional sign, then [Infinity], or digits with an
    optional fraction (at least one digit in all) and an optional
    exponent. *)
Definition readDecimal (s : string) : spec_float :=
  let '(negative, s0) := readSign s in
  if String.eqb s0 "Infinity" then S754_infinity negative
  else
    let '(ip, ni, s1) := readDigits 10 s0 0 0 in
    let '(m, nf, s2) :=
      match s1 with
      | String "."%char s1' => readDigits 10 s1' ip 0
      | _ => (ip, 0, s1)
      end in
    if 0 <? ni + nf then
      match readExponent s2 with
      | Some ex => roundDecimal negative m (ex - nf)
      | None => S754_nan
      end
    else S754_nan.

Definition Number (text : string) : spec_float :=
  let s := trim text in
  match s with
  | EmptyString => S754_zero false
  | _ =>
      match readNonDecimal s with
      | Some v => v
      | None => readDecimal s
      end
  end.

(** [Number.isNaN]. *)
Definition isNaN (v : spec_float) : bool :=
  match v with S754_nan => true | _ => false end.

(** [Number.isInteger]: finite, and equal to its floor. *)
Definition isInteger (v : spec_float) : bool :=
  match v with
  | S754_zero _ => true
  | S754_finite _ m e =>
      if 0 <=? e then true else Zpos m mod 2 ^ (- e) =? 0
  | S754_infinity _ => false
  | S754_nan => false
  end.

(** The rational value of a finite number. *)
Definition valueOf (v : spec_float) : option Q :=
  match v with
  | S754_zero _ => Some (inject_Z 0)
  | S754_finite s m e =>
      Some (inject_Z (if s then Zneg m else Zpos m) * Qpower (inject_Z 2) e)%Q
  | S754_infinity _ => None
  | S754_nan => None
  end.

(** The value is a whole number: it is finite and has no fractional
    part. *)
Definition isWhole (v : spec_float) : Prop :=
  exists (q : Q) (z : Z), valueOf v = Some q /\ (q == inject_Z z)%Q.

(** ** The classification *)

Inductive NumberType : Type :=
| integer
| float.

(** [NumberTypeDef]: [{type: 'number', numberType?}]. *)
Record NumberTypeDef : Type := Build_NumberTypeDef {
  numberType : option NumberType
}.

(** [{node: 'numberLiteral', literal}]. *)
Inductive LiteralNode : Type :=
| numberLiteral (literal : string).

(** The argument of [literalExprValue]. *)
Record LiteralOptions : Type := Build_LiteralOptions {
  lo_dataType : NumberTypeDef;
  lo_value : LiteralNode
}.

Section ConstantExpression.

(** [literalExprValue] and the type [ExprValue] of its result belong to
    the expression-value module, which is not part of the sources at
    hand: they are taken as given. *)
Variable ExprValue : Type.
Variable literalExprValue : LiteralOptions -> ExprValue.

(** [ExprNumber.constantExpression], [n] being the literal's text. *)
Definition constantExpression (n_text : string) : ExprValue :=
  let n := Number n_text in
  let dataType :=
    if isNaN n then {| numberType := None |}
    else {| numberType := Some (if isInteger n then integer else float) |}
  in
  literalExprValue {| lo_dataType := dataType;
                      lo_value := numberLiteral n_text |}.

(** [ExprNumber.getExpression]: the field space is not consulted. *)
Definition getExpression (FieldSpace : Type) (n_text : string)
    (_fs : FieldSpace) : ExprValue :=
  constantExpression n_text.

End ConstantExpression.

End ExprNumber.

(* ================================================================== *)
(** * Field spaces, space entries and the collaborators of the resolver *)
(* ================================================================== *)

Section Resolver.

(** A field space and a schema are handled by the field-space and
    struct-resolver modules, which are not part of the sources at hand;
    so are the clauses of a query ([QOPDesc]).  The resolver only passes
    them around. *)
Variable FieldSpace : Type.
Variable StructDef : Type.
Variable QOPDesc : Type.

(** Modelled from the spec: a field of a schema (§3, [StructDef]) is a leaf
    atomic field, a struct-valued field (a join) or a view; the declaration
    and [isAtomicField] live in the model package, which is not part of the
    sources at hand. *)
Inductive FieldDef : Type :=
| AtomicField (f : AtomicFieldDef)
| StructField (s : StructDef)
| TurtleField (t : TurtleDef).

(** The [type] tag of a schema field. *)
Definition fieldDefType (f : FieldDef) : string :=
  match f with
  | AtomicField a => af_type a
  | StructField _ => "struct"
  | TurtleField _ => "turtle"
  end.

(** [isAtomicField]: the field is a leaf. *)
Definition isAtomicField (f : FieldDef) : option AtomicFieldDef :=
  match f with
  | AtomicField a => Some a
  | _ => None
  end.

(** A view declaration: the object's identity, its name, the view it
    extends, its refinement clauses, its own clauses and its position.
    The [note] of the object is kept in the state. *)
Record TurtleDecl : Type := Build_TurtleDecl {
  oid : nat;
  name : string;
  turtleName : option FieldReference;
  refinements : option (list QOPDesc);
  qops : list QOPDesc;
  location : option DocumentLocation
}.

(** The entries of a field space (§3, [SpaceEntry]).  [ColumnSpaceField],
    [StructSpaceField], [ViewField] and [QueryFieldStruct] are space fields;
    [ViewField] and [QueryFieldStruct] are query fields; [ParamEntry] holds
    a parameter.  A [ColumnSpaceField] holds the definition its [fieldDef()]
    returns, and a [QueryFieldStruct] the view it wraps. *)
Inductive SpaceEntry : Type :=
| ColumnSpaceField (def : FieldDef)
| StructSpaceField (def : StructDef)
| ViewField (inSpace : FieldSpace) (turtle : TurtleDecl)
    (renameAs : option string)
| QueryFieldStruct (inSpace : FieldSpace) (turtleDef : TurtleDef)
| ParamEntry (p : SpaceParam).

(** [found instanceof SpaceField] and [found instanceof QueryField]. *)
Definition isSpaceField (found : SpaceEntry) : bool :=
  match found with
  | ParamEntry _ => false
  | _ => true
  end.

Definition isQueryField (found : SpaceEntry) : bool :=
  match found with
  | ViewField _ _ _ | QueryFieldStruct _ _ => true
  | _ => false
  end.

(** The result of a lookup: the entry found, or an error text. *)
Inductive LookupResult : Type :=
| LookupFound (found : SpaceEntry)
| LookupError (error : string).

(** A dynamic space under construction: whether it is a query space, the
    space itself seen as a field space, its input space and the entries
    declared so far, in declaration order. *)
Record DynamicSpace : Type := Build_DynamicSpace {
  isQuerySpace : bool;
  self : FieldSpace;
  inputSpace : FieldSpace;
  entries : list (string * SpaceEntry)
}.

(** The collaborators of the resolver that are not part of the sources at
    hand: the lookup of a reference, the schema of a space, the static
    space over a schema, the struct resolver, the refinement operator, the
    evaluation of a declaration's own clauses (its [opList]), the extension
    of a note, the registration of a plain field reference, and
    [internalError], which builds the error a node throws for the message
    it is given, with whatever it reports on the way. *)
Record Host : Type := Build_Host {
  getField : FieldReference -> FieldSpace -> LookupResult;
  structDef : FieldSpace -> M StructDef;
  StaticSpace : StructDef -> FieldSpace;
  getFinalStruct :
    TurtleDecl -> StructDef -> list PipeSegment -> M StructDef;
  refinePipeline : TurtleDecl -> FieldSpace -> Pipeline -> M Pipeline;
  appendOps :
    TurtleDecl -> FieldSpace -> list PipeSegment -> M (list PipeSegment);
  extendNoteMethod : option Annotation -> Annotation -> Annotation;
  FieldReference_makeEntry : NestReference -> DynamicSpace -> M DynamicSpace;
  internalError : option DocumentLocation -> string -> M Fault
}.

Variable H : Host.

(** [this.extendNote(ext)] on a declaration. *)
Definition extendNote (this : TurtleDecl) (ext : Annotation) : M unit :=
  note <- getNote (oid this) ;;
  setNote (oid this) (extendNoteMethod H note ext).

(** Modelled from the spec: [entry] and [newEntry] of a dynamic space
    (§4.1, [declare]): a name that is already declared is refused with
    [DuplicateName], attached to the node [logTo]; otherwise the entry is
    added after those declared before. *)
Definition entry (fs : DynamicSpace) (n : string) : option SpaceEntry :=
  option_map snd (find (fun ne => String.eqb (fst ne) n) (entries fs)).

Definition newEntry (fs : DynamicSpace) (n : string)
    (logTo : option DocumentLocation) (e : SpaceEntry) : M DynamicSpace :=
  match entry fs n with
  | Some _ => fun st => Returns fs (addDiagnostic st (DuplicateName logTo n))
  | None =>
      ret {| isQuerySpace := isQuerySpace fs;
             self := self fs;
             inputSpace := inputSpace fs;
             entries := entries fs ++ [(n, e)] |}
  end.

(* ---------------------------------------------------------------- *)
(** ** [TurtleDeclRoot] *)
(* ---------------------------------------------------------------- *)

(** The first part of [getPipeline], the block guarded by
    [if (this.turtleName)]: the pipeline of the extended view, when the
    declaration extends one, and the report of a head of the wrong type.
    [getQueryFieldDef] is the method of the query field that was found. *)
Definition extendedPipeline
    (getQueryFieldDef : SpaceEntry -> FieldSpace -> M (option QueryFieldDef))
    (this : TurtleDecl) (fs : FieldSpace) : M (list PipeSegment) :=
  match turtleName this with
  | Some tn =>
      let headEnt := getField H tn fs in
      let wrongType : M (list PipeSegment * bool) := ret ([], true) in
      r <- match headEnt with
           | LookupError (String c e) =>
               log (location this) (String c e) ;;;
               ret ([], false)
           | LookupFound ((ViewField _ _ _ | QueryFieldStruct _ _) as found) =>
               (if (1 <? List.length (list_ tn))%nat
                then log (fr_location tn) "Cannot use view from join"
                else ret tt) ;;;
               headDef <- getQueryFieldDef found fs ;;
               match isTurtle headDef with
               | Some t =>
                   newPipe <- refinePipeline H this fs (turtleAsPipeline t) ;;
                   match td_annotation t with
                   | Some a => extendNote this (Build_Annotation (Some a) [])
                   | None => ret tt
                   end ;;;
                   ret (pipeline newPipe, false)
               | None => wrongType
               end
           | LookupFound (ColumnSpaceField def) =>
               lens <- inExperiment "scalar_lenses" true ;;
               if lens && negb (String.eqb (fieldDefType def) "struct") then
                 newPipe <- refinePipeline H this fs
                   {| pipeline :=
                        [Build_PipeSegment reduce
                           [QueryFieldName (refString tn)]] |} ;;
                 ret (pipeline newPipe, false)
               else wrongType
           | _ => wrongType
           end ;;
      let '(modelPipe, reportWrongType) := r in
      (if reportWrongType : bool
       then log (location this)
              ("Expected '" ++ toString tn ++ "' to be a query")
       else ret tt) ;;;
      ret modelPipe
  | None => ret []
  end.

(** The second part of [getPipeline]: the scope of the declaration's own
    clauses (the output of the pipeline so far, when there is one) and
    their evaluation. *)
Definition appendOwnClauses (this : TurtleDecl) (fs : FieldSpace)
    (modelPipe : list PipeSegment) : M (list PipeSegment) :=
  pipeOutFS <- match modelPipe with
               | _ :: _ =>
                   struct <- structDef H fs ;;
                   lastOut <- getFinalStruct H this struct modelPipe ;;
                   ret (StaticSpace H lastOut)
               | [] => ret fs
               end ;;
  appendOps H this pipeOutFS modelPipe.

(** The last part of [getPipeline]: the trailing refinement. *)
Definition trailingRefinement (this : TurtleDecl) (fs : FieldSpace)
    (appended : list PipeSegment) : M Pipeline :=
  match refinements this, turtleName this with
  | Some (_ :: _), None =>
      refined <- refinePipeline H this fs {| pipeline := appended |} ;;
      ret {| pipeline := pipeline refined |}
  | _, _ => ret {| pipeline := appended |}
  end.

(** The last part of [getFieldDef]: the view built from the pipeline. *)
Definition finishFieldDef (this : TurtleDecl) (pipe : Pipeline) : M TurtleDef :=
  note <- getNote (oid this) ;;
  let turtle :=
    Build_TurtleDef (name this) None (pipeline pipe) note (location this) in
  let cleaned := detectAndRemovePartialStages (pipeline pipe) in
  if hasPartials cleaned then
    log (location this)
      "Can't determine view type (`group_by` / `aggregate` / `nest`, `project`, `index`)" ;;;
    ret (td_with_pipeline turtle (ps_pipeline cleaned))
  else ret turtle.

(** [def.as = renameAs], when there is a new name. *)
Definition renamed (renameAs : option string) (def : TurtleDef) : TurtleDef :=
  match truthy renameAs with
  | Some a => td_with_as def a
  | None => def
  end.

(** [TurtleDeclRoot.getPipeline], [TurtleDeclRoot.getFieldDef] and the
    [getQueryFieldDef] of the query fields.  Each call consumes one unit
    of [fuel]; a resolution deeper than the budget ends in [OutOfFuel]. *)
Fixpoint getPipeline (fuel : nat) (this : TurtleDecl) (fs : FieldSpace)
    {struct fuel} : M Pipeline :=
  match fuel with
  | O => throw OutOfFuel
  | S fuel' =>
      modelPipe <- extendedPipeline (getQueryFieldDef fuel') this fs ;;
      appended <- appendOwnClauses this fs modelPipe ;;
      trailingRefinement this fs appended
  end

with getFieldDef (fuel : nat) (this : TurtleDecl) (fs : FieldSpace)
    {struct fuel} : M TurtleDef :=
  match fuel with
  | O => throw OutOfFuel
  | S fuel' =>
      pipe <- getPipeline fuel' this fs ;;
      finishFieldDef this pipe
  end

with getQueryFieldDef (fuel : nat) (found : SpaceEntry) (fs : FieldSpace)
    {struct fuel} : M (option QueryFieldDef) :=
  match fuel with
  | O => throw OutOfFuel
  | S fuel' =>
      match found with
      | ViewField _ turtle renameAs =>
          def <- getFieldDef fuel' turtle fs ;;
          ret (Some (QueryFieldTurtle (renamed renameAs def)))
      | QueryFieldStruct _ turtleDef =>
          ret (Some (QueryFieldTurtle turtleDef))
      | _ => ret None
      end
  end.

(** [fieldDef()] of a space field; a parameter has none.  That of a
    [ViewField] is in the sources; the others return what the entry
    holds. *)
Definition fieldDef (fuel : nat) (found : SpaceEntry) : M (option FieldDef) :=
  match found with
  | ColumnSpaceField def => ret (Some def)
  | StructSpaceField def => ret (Some (StructField def))
  | ViewField inSpace turtle renameAs =>
      def <- getFieldDef fuel turtle inSpace ;;
      ret (Some (TurtleField (renamed renameAs def)))
  | QueryFieldStruct _ turtleDef => ret (Some (TurtleField turtleDef))
  | ParamEntry _ => ret None
  end.

(* ---------------------------------------------------------------- *)
(** ** [NestReference] *)
(* ---------------------------------------------------------------- *)

(** [NestReference.typecheck].  The two locals [useInstead] and [kind] are
    assigned in every branch; the call of [log] that reads them is the last
    statement of the [else] branch, so the values assigned for an analytic
    field are never read. *)
Definition typecheck (this : NestReference) (type : TypeDesc) : M unit :=
  if negb (String.eqb (dataType type) "turtle") then
    if expressionIsAnalytic (expressionType type) then
      let useInstead := "a calculate" in
      let kind := "an analytic" in
      ret tt
    else
      lens <- inExperiment "scalar_lenses" true ;;
      if lens : bool then ret tt
      else
        locals <-
          (if expressionIsScalar (expressionType type) then
             ret ("a group_by or select", "a scalar")
           else if expressionIsAggregate (expressionType type) then
             ret ("an aggregate", "an aggregate")
           else
             throw (JsError
               "Unexpected expression type [object Object] not handled here")) ;;
        let '(useInstead, kind) := locals in
        log (nr_location this)
          ("Cannot use " ++ kind ++
           " field in a nest operation, did you mean to use " ++
           useInstead ++ " operation instead?")
  else ret tt.

(** The view that [makeEntry] builds around a leaf field: one [reduce]
    stage holding that field alone, read through the reference. *)
Definition lensTurtle (this : NestReference) (field : AtomicFieldDef)
  : TurtleDef :=
  let name :=
    match af_as field with Some a => a | None => af_name field end in
  Build_TurtleDef name None
    [Build_PipeSegment reduce
       [QueryFieldAtomic
          {| af_type := af_type field;
             af_name := name;
             af_as := None;
             af_expressionType := af_expressionType field;
             af_e := Some [FieldFragment (refString (nr_name this))] |}]]
    None None.

(** The first part of [makeEntry]: the leaf field the reference resolves
    to, when it resolves to a space field whose definition is atomic. *)
Definition atomicLeaf (fuel : nat) (this : NestReference) (fs : DynamicSpace)
  : M (option AtomicFieldDef) :=
  let lookup := getField H (nr_name this) (inputSpace fs) in
  match lookup with
  | LookupFound found =>
      if isSpaceField found then
        field <- fieldDef fuel found ;;
        match field with
        | Some f => ret (isAtomicField f)
        | None => ret None
        end
      else ret None
  | LookupError _ => ret None
  end.

(** [NestReference.makeEntry]; the space after the call is returned. *)
Definition makeEntry (fuel : nat) (this : NestReference) (fs : DynamicSpace)
  : M DynamicSpace :=
  if isQuerySpace fs then
    leaf <- atomicLeaf fuel this fs ;;
    match leaf with
    | Some field =>
        let t := lensTurtle this field in
        newEntry fs (td_name t) (nr_location this)
          (QueryFieldStruct (self fs) t)
    | None =>
        if (1 <? List.length (list_ (nr_name this)))%nat then
          log (nr_location this) "Cannot nest view from join" ;;;
          ret fs
        else FieldReference_makeEntry H this fs
    end
  else
    error <- internalError H (nr_location this)
               "Unexpected namespace for nest" ;;
    throw error.

End Resolver.

Arguments AtomicField {StructDef} f.
Arguments StructField {StructDef} s.
Arguments TurtleField {StructDef} t.
Arguments ColumnSpaceField {FieldSpace StructDef QOPDesc} def.
Arguments StructSpaceField {FieldSpace StructDef QOPDesc} def.
Arguments ViewField {FieldSpace StructDef QOPDesc} inSpace turtle renameAs.
Arguments QueryFieldStruct {FieldSpace StructDef QOPDesc} inSpace turtleDef.
Arguments ParamEntry {FieldSpace StructDef QOPDesc} p.
Arguments LookupFound {FieldSpace StructDef QOPDesc} found.
Arguments LookupError {FieldSpace StructDef QOPDesc} error.

(* ================================================================== *)
(** * A sample compilation unit *)
(* ================================================================== *)

(** Concrete collaborators and inputs on which the resolver is run.  Field
    spaces and schemas are indices into a small arena; a clause contributes
    the stage it stands for; refinement and appending add the stages of the
    clauses at the end of the pipeline. *)
Module Sample.

Definition FieldSpace : Type := nat.
Definition StructDef : Type := nat.
Definition QOPDesc : Type := PipeSegment.

Definition amount : AtomicFieldDef :=
  {| af_type := "number"; af_name := "amount"; af_as := None;
     af_expressionType := None; af_e := None |}.

Definition by_carrier : TurtleDef :=
  Build_TurtleDef "by_carrier" None
    [Build_PipeSegment reduce [QueryFieldName "carrier"]] None None.

Definition reference (segments : list string) (at_ : DocumentLocation)
  : FieldReference :=
  {| list_ := segments;
     refString := String.concat "." segments;
     toString := String.concat "." segments;
     fr_location := Some at_ |}.

Fixpoint samePath (a b : list string) : bool :=
  match a, b with
  | [], [] => true
  | x :: a', y :: b' => String.eqb x y && samePath a' b'
  | _, _ => false
  end.

(** The source space, index 0: a column [amount], a view [by_carrier], and
    a join [join_field] (space 1) with a column [amount] and a view
    [by_carrier] of its own. *)
Definition table : list (list string * SpaceEntry FieldSpace StructDef QOPDesc) :=
  [ (["amount"], ColumnSpaceField (AtomicField amount));
    (["by_carrier"], QueryFieldStruct 0 by_carrier);
    (["join_field"], StructSpaceField 1);
    (["join_field"; "amount"], ColumnSpaceField (AtomicField amount));
    (["join_field"; "by_carrier"], QueryFieldStruct 1 by_carrier) ].

Definition lookup (r : FieldReference) (fs : FieldSpace)
  : LookupResult FieldSpace StructDef QOPDesc :=
  match fs with
  | O =>
      match find (fun pe => samePath (fst pe) (list_ r)) table with
      | Some pe => LookupFound (snd pe)
      | None => LookupError ("'" ++ refString r ++ "' is not defined")
      end
  | S _ => LookupError ("'" ++ refString r ++ "' is not defined")
  end.

Definition clausesOf (r : option (list QOPDesc)) : list PipeSegment :=
  match r with
  | Some l => l
  | None => []
  end.

Definition host : Host FieldSpace StructDef QOPDesc :=
  {| getField := lookup;
     structDef := fun fs => ret fs;
     StaticSpace := fun s => s;
     getFinalStruct := fun _ s _ => ret s;
     refinePipeline := fun this _ p =>
       ret {| pipeline := pipeline p ++ clausesOf (refinements this) |};
     appendOps := fun this _ p => ret (p ++ qops this);
     extendNoteMethod := fun note ext =>
       match note, ext with
       | Some (Build_Annotation _ ns), Build_Annotation i _ =>
           Build_Annotation i ns
       | None, _ => ext
       end;
     FieldReference_makeEntry := fun _ fs => ret fs;
     internalError := fun at_ message =>
       log at_ ("INTERNAL ERROR IN TRANSLATION: " ++ message) ;;;
       ret (InternalError message) |}.

(** [view: v is join_field.by_carrier]. *)
Definition joinedView : TurtleDecl QOPDesc :=
  {| oid := 1; name := "v";
     turtleName := Some (reference ["join_field"; "by_carrier"] 7);
     refinements := None; qops := []; location := Some 5 |}.

(** [view: a is amount]. *)
Definition lensView : TurtleDecl QOPDesc :=
  {| oid := 2; name := "a";
     turtleName := Some (reference ["amount"] 9);
     refinements := None; qops := []; location := Some 8 |}.

Definition groupByCarrier : PipeSegment :=
  Build_PipeSegment reduce [QueryFieldName "carrier"].
Definition limitOnly : PipeSegment := Build_PipeSegment partial [].

(** A view with clauses of its own and refinement clauses, extending
    nothing. *)
Definition refinedView : TurtleDecl QOPDesc :=
  {| oid := 3; name := "r"; turtleName := None;
     refinements := Some [limitOnly]; qops := [groupByCarrier];
     location := Some 11 |}.

(** A view with clauses of its own only. *)
Definition plainView : TurtleDecl QOPDesc :=
  {| oid := 4; name := "p"; turtleName := None;
     refinements := None; qops := [groupByCarrier];
     location := Some 12 |}.

(** A view extending [by_carrier], with refinement clauses. *)
Definition extendingView : TurtleDecl QOPDesc :=
  {| oid := 5; name := "e";
     turtleName := Some (reference ["by_carrier"] 14);
     refinements := Some [limitOnly]; qops := [];
     location := Some 13 |}.

(** [nest: join_field.amount], [nest: join_field.by_carrier] and
    [nest: amount]. *)
Definition nestJoinedAmount : NestReference :=
  {| nr_name := reference ["join_field"; "amount"] 21;
     nr_location := Some 20 |}.
Definition nestJoinedView : NestReference :=
  {| nr_name := reference ["join_field"; "by_carrier"] 23;
     nr_location := Some 22 |}.
Definition nestAmount : NestReference :=
  {| nr_name := reference ["amount"] 25;
     nr_location := Some 24 |}.

(** An empty query space (index 2) reading the source space. *)
Definition querySpace : DynamicSpace FieldSpace StructDef QOPDesc :=
  {| isQuerySpace := true; self := 2; inputSpace := 0; entries := [] |}.

(** The initial states, with the scalar-lens experiment off and on. *)
Definition lensOff : State :=
  {| diagnostics := []; notes := fun _ => None; experiments := [] |}.
Definition lensOn : State :=
  {| diagnostics := []; notes := fun _ => None;
     experiments := ["scalar_lenses"] |}.

End Sample.

(* ================================================================== *)
(** * The other declarations that register a view *)
(* ================================================================== *)

Section ViewEntries.

Variable FieldSpace : Type.
Variable StructDef : Type.
Variable QOPDesc : Type.

Variable H : Host FieldSpace StructDef QOPDesc.

(** [declareAsNestInside] belongs to the pipeline description a declaration
    extends, which is not part of the sources at hand: it is taken as
    given. *)
Variable declareAsNestInside :
  TurtleDecl QOPDesc -> DynamicSpace FieldSpace StructDef QOPDesc -> M unit.

(** [TurtleDeclRoot.makeEntry]: the declaration is registered under its name
    as a view field of the space. *)
Definition TurtleDeclRoot_makeEntry (this : TurtleDecl QOPDesc)
    (fs : DynamicSpace FieldSpace StructDef QOPDesc)
  : M (DynamicSpace FieldSpace StructDef QOPDesc) :=
  newEntry fs (name this) (location this) (ViewField (self fs) this None).

(** [new NestField(fs, turtle, name, spaceContainingNest)]: a view field
    whose construction declares the view as a nest of the space. *)
Definition NestField (fs : FieldSpace) (turtle : TurtleDecl QOPDesc)
    (spaceContainingNest : DynamicSpace FieldSpace StructDef QOPDesc)
  : M (SpaceEntry FieldSpace StructDef QOPDesc) :=
  declareAsNestInside turtle spaceContainingNest ;;;
  ret (ViewField fs turtle None).

(** [NestRefinement.makeEntry] and [NestDefinition.makeEntry], which have
    the same body. *)
Definition Nest_makeEntry (this : TurtleDecl QOPDesc)
    (fs : DynamicSpace FieldSpace StructDef QOPDesc)
  : M (DynamicSpace FieldSpace StructDef QOPDesc) :=
  if isQuerySpace fs then
    qf <- NestField (self fs) this fs ;;
    newEntry fs (name this) (location this) qf
  else
    error <- internalError H (location this)
               "Unexpected namespace for nest" ;;
    throw error.

Definition NestRefinement_makeEntry := Nest_makeEntry.
Definition NestDefinition_makeEntry := Nest_makeEntry.

End ViewEntries.

(* ================================================================== *)
(** * Parameters, continued ([space-param]) *)
(* ================================================================== *)

(** [SpaceParam.parameter()]: that of an abstract parameter is computed by
    its AST node ([astParameter], not part of the sources at hand), that of
    a defined parameter is the definition it holds. *)
Definition parameter (astParameter : HasParameter -> ModelParameter)
    (p : SpaceParam) : ModelParameter :=
  match p with
  | AbstractParameter astParam => astParameter astParam
  | DefinedParameter paramDef => paramDef
  end.

(** [SpaceParam.refType]. *)
Definition refType (p : SpaceParam) : string := "parameter".

(* ================================================================== *)
(** * Objects as records of writes *)
(* ================================================================== *)

(** A JavaScript object used as a map from names to values.  Its own
    properties are a list, in the order in which they were first defined;
    defining a property that exists replaces its value in place.  [set]
    defines a property, as an object literal and a spread do, and as a write
    [o[k] = v] does under any name but ["__proto__"]; [write] is the write
    [o[k] = v] on an object created as [{}], under any name. *)
Module JsObject.
Section Objects.

Variable V : Type.

Definition t : Type := list (string * V).

Fixpoint get (o : t) (k : string) : option V :=
  match o with
  | [] => None
  | (k', v) :: o' => if String.eqb k' k then Some v else get o' k
  end.

Fixpoint set (o : t) (k : string) (v : V) : t :=
  match o with
  | [] => [(k, v)]
  | (k', v') :: o' =>
      if String.eqb k' k then (k', v) :: o' else (k', v') :: set o' k v
  end.

Definition keys (o : t) : list string := List.map fst o.

(** [{...target, ...source}]. *)
Definition assign (target source : t) : t :=
  fold_left (fun acc kv => set acc (fst kv) (snd kv)) source target.

(** What a write under ["__proto__"] tells apart in a value: an object,
    [null], or anything else. *)
Inductive ValueKind : Type :=
| ObjectValue
| NullValue
| PrimitiveValue.

(** The kind of a value, and the enumerable properties an object value
    brings to an object it is the prototype of, are the language's.  Values
    are data: an object value inherits the default prototype and has no
    accessor and no read-only property. *)
Variable kindOf : V -> ValueKind.
Variable inherited : V -> t.

(** An object created as [{}]: its own properties, and the value a write
    under ["__proto__"] has made its prototype, if any. *)
Record Plain : Type := Build_Plain {
  own : t;
  proto : option V
}.

Definition empty : Plain := {| own := []; proto := None |}.

(** [o[k] = v].  Under ["__proto__"] the write runs the setter of the
    default prototype: an object or [null] becomes the prototype, any other
    value is dropped, and no own property is defined; once the prototype is
    [null] the setter is out of reach and the write defines a property as
    under any other name. *)
Definition write (o : Plain) (k : string) (v : V) : Plain :=
  if String.eqb k "__proto__" then
    match option_map kindOf (proto o) with
    | Some NullValue => {| own := set (own o) k v; proto := proto o |}
    | _ =>
        match kindOf v with
        | PrimitiveValue => o
        | _ => {| own := own o; proto := Some v |}
        end
    end
  else {| own := set (own o) k v; proto := proto o |}.


End Objects.
End JsObject.

(* ================================================================== *)
(** * Connections ([connection]) *)
(* ================================================================== *)

Module Connection.

(** A promise, as far as the code at hand settles it. *)
Inductive Promise (A : Type) : Type :=
| Resolved (value : A)
| Rejected (reason : string)
| Pending.
Arguments Resolved {A} value.
Arguments Rejected {A} reason.
Arguments Pending {A}.

(** The completion of a call: a value, or an [Error] thrown. *)
Inductive Completion (A : Type) : Type :=
| Normal (value : A)
| Thrown (message : string).
Arguments Normal {A} value.
Arguments Thrown {A} message.

(** A connection: its name and its dialect. *)
Record Connection : Type := Build_Connection {
  _name : string;
  dialectName : string
}.

(** [get name()]. *)
Definition name (this : Connection) : string := _name this.

(** [Connection.getConnection]. *)
Definition getConnection (this : Connection) (connectionName : option string)
  : Completion (Promise Connection) :=
  match connectionName with
  | Some n =>
      if negb (String.eqb n (name this))
      then Thrown ("Unknown Connection: " ++ n)
      else Normal (Resolved this)
  | None => Normal (Resolved this)
  end.

(** [Connection.lookupQueryRunner] and [Connection.lookupSchemaReader]. *)
Definition lookupQueryRunner (this : Connection)
    (connectionName : option string) : Completion (Promise Connection) :=
  getConnection this connectionName.

Definition lookupSchemaReader (this : Connection)
    (connectionName : option string) : Completion (Promise Connection) :=
  getConnection this connectionName.

End Connection.

(* ================================================================== *)
(** * The Snowflake executor ([snowflake_executor]) *)
(* ================================================================== *)

Module Snowflake.
Section Executor.

(** The values of cells and of settings, and the lower-casing of a string
    by the language, are taken as given. *)
Variable Value : Type.
Variable toLowerCase : string -> string.
Variable kindOf : Value -> JsObject.ValueKind.

(** A row as the code reads it: the columns [for (const key in row)]
    visits, in that order, each with [row[key]]. *)
Definition QueryDataRow : Type := JsObject.t Value.

(** [columnNameToLowerCase]: the object [ret], created as [{}] and written
    once per column. *)
Definition columnNameToLowerCase (row : QueryDataRow) : JsObject.Plain Value :=
  fold_left
    (fun ret kv => JsObject.write kindOf ret (toLowerCase (fst kv)) (snd kv))
    row (JsObject.empty Value).

(** ** [_execute]: the completion callback of a statement *)

(** What the callback does to the promise: [err] rejects it, otherwise
    [rows] resolve it; with neither the promise is left pending. *)
Definition complete (err : option string) (rows : option (list QueryDataRow))
  : Connection.Promise (list (JsObject.Plain Value)) :=
  match err with
  | Some e => Connection.Rejected e
  | None =>
      match rows with
      | Some rs => Connection.Resolved (List.map columnNameToLowerCase rs)
      | None => Connection.Pending
      end
  end.

(** ** [stream]: the callbacks driven by the row stream *)

Inductive StreamEvent : Type :=
| ErrorEvent (error : string)
| DataEvent (row : QueryDataRow)
| EndEvent.

(** The calls made in response: [onError], [onData], [onEnd] and the
    release of the connection to the pool. *)
Inductive Callback : Type :=
| OnError (error : string)
| OnData (row : JsObject.Plain Value)
| OnEnd
| PoolRelease.

Record RunSQLOptions : Type := Build_RunSQLOptions {
  rowLimit : option Z
}.

(** [options?.rowLimit !== undefined && index >= options.rowLimit]. *)
Definition limitReached (options : option RunSQLOptions) (index : Z) : bool :=
  match options with
  | Some o =>
      match rowLimit o with
      | Some limit => (limit <=? index)%Z
      | None => false
      end
  | None => false
  end.

(** [handleData]: the calls made for one row and the new value of
    [index]. *)
Definition handleData (options : option RunSQLOptions) (index : Z)
    (row : QueryDataRow) : list Callback * Z :=
  let index' := (index + 1)%Z in
  (OnData (columnNameToLowerCase row) ::
   (if limitReached options index' then [OnEnd] else []),
   index').

(** [handleEnd]. *)
Definition handleEnd : list Callback := [OnEnd; PoolRelease].

(** [streamSnowflake]: the handlers registered on the stream, run over the
    events it emits, [index] being the number of rows seen so far. *)
Fixpoint streamSnowflake (options : option RunSQLOptions) (index : Z)
    (events : list StreamEvent) : list Callback :=
  match events with
  | [] => []
  | ErrorEvent e :: rest => OnError e :: streamSnowflake options index rest
  | DataEvent row :: rest =>
      let '(calls, index') := handleData options index row in
      calls ++ streamSnowflake options index' rest
  | EndEvent :: rest => handleEnd ++ streamSnowflake options index rest
  end.

(** The calls made over a whole stream: [index] starts at 0. *)
Definition streamCalls (options : option RunSQLOptions)
    (events : list StreamEvent) : list Callback :=
  streamSnowflake options 0%Z events.

(** The rows a stream emits, and the counts used to state what the
    callbacks receive. *)
Definition rowsOf (events : list StreamEvent) : list QueryDataRow :=
  flat_map (fun ev => match ev with DataEvent r => [r] | _ => [] end) events.

Definition dataOf (calls : list Callback) : list (JsObject.Plain Value) :=
  flat_map (fun c => match c with OnData r => [r] | _ => [] end) calls.

Definition countEnds (events : list StreamEvent) : Z :=
  Z.of_nat (List.length
    (filter (fun ev => match ev with EndEvent => true | _ => false end) events)).

Definition countOnEnd (calls : list Callback) : Z :=
  Z.of_nat (List.length
    (filter (fun c => match c with OnEnd => true | _ => false end) calls)).

Definition countRelease (calls : list Callback) : Z :=
  Z.of_nat (List.length
    (filter (fun c => match c with PoolRelease => true | _ => false end) calls)).

(** ** [getConnectionOptionsFromToml] *)

(** Truthiness of a setting and the two settings the executor defaults are
    made of are taken as given. *)
Variable truthyValue : Value -> bool.
Variable VBool : bool -> Value.
Variable VNumber : Z -> Value.

(** A table of the configuration file. *)
Definition Table : Type := JsObject.t Value.

Record ConnectionConfigFile : Type := Build_ConnectionConfigFile {
  config_file_path : option string;
  connection_name : option string
}.

(** What the function reads from its surroundings: two environment
    variables, the joining of path segments, the file system and the parser
    of the configuration format.  Reading and parsing may fail with an
    error of their own.  The parsed file is the list of its tables. *)
Record System : Type := Build_System {
  HOME : option string;
  USERPROFILE : option string;
  pathJoin : list string -> string;
  existsSync : string -> bool;
  readFileSync : string -> string + string;
  tomlParse : string -> string + JsObject.t Table
}.

(** The outcome: the options, an [Error] of the function, or the error of
    the file system or of the parser. *)
Inductive OptionsResult : Type :=
| Options (options : Table)
| OptionsError (message : string)
| ForeignError (error : string).

Definition defaultConnectionOptions : Table :=
  [("clientSessionKeepAlive", VBool true);
   ("clientSessionKeepAliveHeartbeatFrequency", VNumber 900)].

(** [a || b] on two optional strings. *)
Definition or_undefined (a b : option string) : option string :=
  match truthy a with
  | Some x => Some x
  | None => b
  end.

(** The location of the configuration file, or the error for a missing
    home directory. *)
Definition configLocation (sys : System) (options : option ConnectionConfigFile)
  : string + string :=
  match match options with Some o => config_file_path o | None => None end with
  | Some location => inr location
  | None =>
      match or_undefined (HOME sys) (USERPROFILE sys) with
      | None => inl "could not find a path to connections.toml"
      | Some homeDir =>
          inr (pathJoin sys [homeDir; ".snowflake"; "connections.toml"])
      end
  end.

(** [connection['username'] = connection['username'] ?? connection['user']]:
    the user name, and the table once it is written (an undefined user name
    is caught by the validation that follows). *)
Definition userName (connection : Table) : option Value :=
  match JsObject.get connection "username" with
  | Some u => Some u
  | None => JsObject.get connection "user"
  end.

Definition withUserName (connection : Table) : Table :=
  match userName connection with
  | Some u => JsObject.set connection "username" u
  | None => connection
  end.

Definition getConnectionOptionsFromToml (sys : System)
    (options : option ConnectionConfigFile) : OptionsResult :=
  match configLocation sys options with
  | inl message => OptionsError message
  | inr location =>
      if negb (existsSync sys location) then
        OptionsError ("provided snowflake connection config file: " ++
                      location ++ " does not exist")
      else
        match readFileSync sys location with
        | inl e => ForeignError e
        | inr tomlData =>
            match tomlParse sys tomlData with
            | inl e => ForeignError e
            | inr connections =>
                let tomlConnectionName :=
                  match match options with
                        | Some o => connection_name o
                        | None => None
                        end with
                  | Some n => n
                  | None => "default"
                  end in
                match JsObject.get connections tomlConnectionName with
                | None =>
                    OptionsError
                      ("provided snowflake connection name: " ++
                       tomlConnectionName ++ " does not exist at " ++ location)
                | Some connection =>
                    let connection' := withUserName connection in
                    let invalid :=
                      OptionsError
                        ("provided snowflake connection config file at " ++
                         location ++ " is not valid") in
                    match JsObject.get connection' "account",
                          userName connection with
                    | Some account, Some username =>
                        if truthyValue account && truthyValue username then
                          Options
                            (JsObject.assign
                               (JsObject.set
                                  (JsObject.set defaultConnectionOptions
                                     "account" account)
                                  "username" username)
                               connection')
                        else invalid
                    | _, _ => invalid
                    end
                end
            end
        end
  end.

(** The parser yields objects: the settings of a table have distinct
    names. *)
Definition parsesObjects (sys : System) : Prop :=
  forall text connections n table,
    tomlParse sys text = inr connections ->
    JsObject.get connections n = Some table ->
    NoDup (JsObject.keys table).

(** The name of the table that is read. *)
Definition tomlConnectionName (options : option ConnectionConfigFile) : string :=
  match match options with
        | Some o => connection_name o
        | None => None
        end with
  | Some n => n
  | None => "default"
  end.

(** The table [connection] is the one the call reads: the table named by
    the options in the file at the configured location. *)
Definition readsTable (sys : System) (options : option ConnectionConfigFile)
    (connection : Table) : Prop :=
  exists location text connections,
    configLocation sys options = inr location /\
    existsSync sys location = true /\
    readFileSync sys location = inr text /\
    tomlParse sys text = inr connections /\
    JsObject.get connections (tomlConnectionName options) = Some connection.

End Executor.
End Snowflake.

(* ================================================================== *)
(** * The chart renderer ([html/chart]) *)
(* ================================================================== *)

Module ChartRenderer.
Section Renderer.

(** Rows, fields, cells and the values a chart plots are those of the data
    package and of the concrete renderer; they are taken as given. *)
Variable Row : Type.
Variable Field : Type.
Variable DataColumn : Type.
Variable PlotValue : Type.
Variable fieldName : Field -> string.
Variable cell : Row -> Field -> DataColumn.
Variable getDataValue : DataColumn -> PlotValue.
Variable kindOf : PlotValue -> JsObject.ValueKind.

Record DataArray : Type := Build_DataArray {
  rows : list Row;
  intrinsicFields : list Field
}.

(** [HTMLChartRenderer.mapData]. *)
Definition mapData (data : DataArray) : list (JsObject.Plain PlotValue) :=
  List.map
    (fun row =>
       fold_left
         (fun mappedRow field =>
            JsObject.write kindOf mappedRow (fieldName field)
              (getDataValue (cell row field)))
         (intrinsicFields data) (JsObject.empty PlotValue))
    (rows data).

Record ChartRenderOptions : Type := Build_ChartRenderOptions {
  cro_size : option string
}.

Record StyleDefaults : Type := Build_StyleDefaults {
  sd_size : option string
}.

(** The [size] set by the constructor; [options] defaults to [{}]. *)
Definition size (styleDefaults : StyleDefaults)
    (options : option ChartRenderOptions) : string :=
  let o := match options with
           | Some o => o
           | None => {| cro_size := None |}
           end in
  or_string (cro_size o) (or_string (sd_size styleDefaults) "medium").

End Renderer.
End ChartRenderer.

(* ================================================================== *)
(** * Blank literals *)
(* ================================================================== *)

(** The text holds white space only (or nothing). *)
Fixpoint blank (s : string) : bool :=
  match s with
  | EmptyString => true
  | String c s' => ExprNumber.isWhiteSpace c && blank s'
  end.

(* ================================================================== *)
(** * More sample inputs *)
(* ================================================================== *)

Module Sample2.

(** [view: u is nowhere], [nest: join_field] and a space that is not a query
    space. *)
Definition unknownView : TurtleDecl Sample.QOPDesc :=
  {| oid := 6; name := "u";
     turtleName := Some (Sample.reference ["nowhere"] 31);
     refinements := None; qops := [Sample.groupByCarrier];
     location := Some 30 |}.

Definition nestJoin : NestReference :=
  {| nr_name := Sample.reference ["join_field"] 33;
     nr_location := Some 32 |}.

Definition dynamicSpace
  : DynamicSpace Sample.FieldSpace Sample.StructDef Sample.QOPDesc :=
  {| isQuerySpace := false; self := 3; inputSpace := 0; entries := [] |}.

(** A source space with an annotated view [noted], besides what the sample
    source space has, and [view: n is noted]. *)
Definition barChart : Annotation := Build_Annotation None ["# bar_chart"].

Definition noted : TurtleDef :=
  Build_TurtleDef "noted" None [Sample.groupByCarrier] (Some barChart) None.

Definition lookup (r : FieldReference) (fs : Sample.FieldSpace)
  : LookupResult Sample.FieldSpace Sample.StructDef Sample.QOPDesc :=
  if Sample.samePath (list_ r) ["noted"]
  then LookupFound (QueryFieldStruct 0 noted)
  else Sample.lookup r fs.

Definition host : Host Sample.FieldSpace Sample.StructDef Sample.QOPDesc :=
  {| getField := lookup;
     structDef := structDef Sample.host;
     StaticSpace := StaticSpace Sample.host;
     getFinalStruct := getFinalStruct Sample.host;
     refinePipeline := refinePipeline Sample.host;
     appendOps := appendOps Sample.host;
     extendNoteMethod := extendNoteMethod Sample.host;
     FieldReference_makeEntry := FieldReference_makeEntry Sample.host;
     internalError := internalError Sample.host |}.

Definition notedExtension : TurtleDecl Sample.QOPDesc :=
  {| oid := 7; name := "n";
     turtleName := Some (Sample.reference ["noted"] 35);
     refinements := None; qops := []; location := Some 34 |}.

(** Lower-casing of the letters A to Z. *)
Definition lowerChar (c : ascii) : ascii :=
  let n := nat_of_ascii c in
  if ((65 <=? n) && (n <=? 90))%nat then ascii_of_nat (n + 32) else c.

Fixpoint asciiLower (s : string) : string :=
  match s with
  | EmptyString => EmptyString
  | String c s' => String (lowerChar c) (asciiLower s')
  end.

(** Settings: strings, numbers and booleans, with their truthiness. *)
Inductive Setting : Type :=
| SString (s : string)
| SNumber (n : Z)
| SBool (b : bool).

Definition truthySetting (v : Setting) : bool :=
  match v with
  | SString s => negb (String.eqb s "")
  | SNumber n => negb (Z.eqb n 0)
  | SBool b => b
  end.

(** Settings are not objects. *)
Definition kindOfSetting (v : Setting) : JsObject.ValueKind :=
  JsObject.PrimitiveValue.

(** Integers are not objects either. *)
Definition kindOfZ (v : Z) : JsObject.ValueKind := JsObject.PrimitiveValue.

(** A row with the columns [ID] and [Name]. *)
Definition row : Snowflake.QueryDataRow Setting :=
  [("ID", SNumber 7); ("Name", SString "ann")].

(** A system whose home directory holds a configuration file with one
    table, [default]. *)
Definition defaultTable : Snowflake.Table Setting :=
  [("account", SString "acme"); ("user", SString "ann");
   ("clientSessionKeepAlive", SBool false)].

Definition system : Snowflake.System Setting :=
  {| Snowflake.HOME := Some "/home/ann";
     Snowflake.USERPROFILE := None;
     Snowflake.pathJoin := String.concat "/";
     Snowflake.existsSync :=
       String.eqb "/home/ann/.snowflake/connections.toml";
     Snowflake.readFileSync := fun _ => inr "[default]";
     Snowflake.tomlParse := fun _ => inr [("default", defaultTable)] |}.

(** The options with an explicit path to the same file. *)
Definition explicitPath : Snowflake.ConnectionConfigFile :=
  {| Snowflake.config_file_path :=
       Some "/home/ann/.snowflake/connections.toml";
     Snowflake.connection_name := None |}.

(** A connection and a table of two rows over the fields [x] and [y]. *)
Definition duckdb : Connection.Connection :=
  {| Connection._name := "duckdb"; Connection.dialectName := "duckdb" |}.

Definition points : ChartRenderer.DataArray (list Z) nat :=
  {| ChartRenderer.rows := [[1; 2]; [3; 4]]%Z;
     ChartRenderer.intrinsicFields := [0; 1]%nat |}.

Definition pointFieldName (field : nat) : string :=
  match field with
  | O => "x"
  | _ => "y"
  end.

Definition pointCell (r : list Z) (field : nat) : Z := nth field r 0%Z.

End Sample2.

(* ================================================================== *)
(** * Properties *)
(* ================================================================== *)

(** ** Parameters are scalar *)

(** C10. Every parameter entry, abstract or defined, reports a type
    descriptor classified [scalar], whatever its declared data type; it is
    never classified aggregate or analytic. *)
Theorem typeDesc_parameter_scalar (p : SpaceParam) :
  expressionType (typeDesc p) = scalar /\
  expressionIsScalar (expressionType (typeDesc p)) = true /\
  expressionIsAggregate (expressionType (typeDesc p)) = false /\
  expressionIsAnalytic (expressionType (typeDesc p)) = false.
Proof.
  destruct p as [astParam | paramDef]; cbn; repeat split.
Qed.

(** ** The type check of a bare-reference nest *)

Lemma typecheck_turtle (this : NestReference) (type : TypeDesc) (st : State) :
  dataType type = "turtle" -> typecheck this type st = Returns tt st.
Proof.
  intros E. unfold typecheck. rewrite E. reflexivity.
Qed.

Lemma typecheck_not_turtle (type : TypeDesc) :
  dataType type <> "turtle" ->
  negb (String.eqb (dataType type) "turtle") = true.
Proof.
  intros N. destruct (String.eqb_spec (dataType type) "turtle"); [contradiction | reflexivity].
Qed.

(** C2, as the code has it. A descriptor with data type [turtle] is never
    rejected.  Any other aggregate descriptor gets the "an aggregate
    operation" diagnostic when the scalar-lens experiment is off and is
    silently accepted when it is on; any other scalar descriptor gets the
    "a group_by or select operation" diagnostic when the experiment is off
    and is silently accepted when it is on.  (Nothing is stated here of the
    analytic descriptors.) *)
Theorem typecheck_cases (this : NestReference) (type : TypeDesc) (st : State) :
  (dataType type = "turtle" -> typecheck this type st = Returns tt st) /\
  (dataType type <> "turtle" ->
     match expressionType type with
     | analytic => True
     | aggregate =>
         typecheck this type st =
         if enabled "scalar_lenses" st then Returns tt st
         else Returns tt (addDiagnostic st (Log (nr_location this)
           "Cannot use an aggregate field in a nest operation, did you mean to use an aggregate operation instead?"))
     | scalar =>
         typecheck this type st =
         if enabled "scalar_lenses" st then Returns tt st
         else Returns tt (addDiagnostic st (Log (nr_location this)
           "Cannot use a scalar field in a nest operation, did you mean to use a group_by or select operation instead?"))
     end).
Proof.
  split.
  - apply typecheck_turtle.
  - intros N. unfold typecheck.
    rewrite (@typecheck_not_turtle type N).
    destruct (expressionType type); cbn; [| | exact I];
      unfold bind, inExperiment, log, ret;
      destruct (enabled "scalar_lenses" st); reflexivity.
Qed.

(** The branch of the analytic descriptors, as the code runs it: the message
    prepared for them is not logged, whatever the experiment. *)
Lemma typecheck_analytic_unreported (this : NestReference) (type : TypeDesc)
    (st : State) :
  expressionType type = analytic ->
  typecheck this type st = Returns tt st.
Proof.
  intros E. unfold typecheck. rewrite E. cbn.
  destruct (negb (String.eqb (dataType type) "turtle")); reflexivity.
Qed.

(** The theorem at [nest: amount] with a scalar number and the experiment
    off. *)
Lemma typecheck_cases_witness :
  typecheck Sample.nestAmount
    {| dataType := "number"; expressionType := scalar |} Sample.lensOff =
  Returns tt (addDiagnostic Sample.lensOff (Log (Some 24)
    "Cannot use a scalar field in a nest operation, did you mean to use a group_by or select operation instead?")).
Proof.
  apply (proj2 (typecheck_cases Sample.nestAmount
                  {| dataType := "number"; expressionType := scalar |}
                  Sample.lensOff)).
  cbn. discriminate.
Defined.

(** C2, as stated, fails: with the scalar-lens experiment on, an aggregate
    number is accepted without any diagnostic. *)
Lemma typecheck_aggregate_lens_counterexample :
  enabled "scalar_lenses" Sample.lensOn = true /\
  typecheck Sample.nestAmount
    {| dataType := "number"; expressionType := aggregate |} Sample.lensOn =
  Returns tt Sample.lensOn /\
  diagnosticsOf
    (typecheck Sample.nestAmount
       {| dataType := "number"; expressionType := aggregate |} Sample.lensOn)
  = [].
Proof.
  repeat split.
Qed.

(** ** Partial stages *)

Lemma filter_not_partial_idempotent (p : list PipeSegment) :
  filter (fun s => negb (isPartialStage s))
    (filter (fun s => negb (isPartialStage s)) p) =
  filter (fun s => negb (isPartialStage s)) p.
Proof.
  induction p as [| s p IH]; cbn; [reflexivity |].
  destruct (isPartialStage s) eqn:E; cbn.
  - exact IH.
  - rewrite E. cbn. now rewrite IH.
Qed.

Lemma filter_not_partial_clean (p : list PipeSegment) :
  countPartialStages p = 0%nat ->
  filter (fun s => negb (isPartialStage s)) p = p.
Proof.
  unfold countPartialStages.
  induction p as [| s p IH]; cbn; [reflexivity |].
  destruct (isPartialStage s) eqn:E; cbn.
  - discriminate.
  - intros Z. now rewrite IH.
Qed.

Lemma hasPartials_count (p : list PipeSegment) :
  hasPartials (detectAndRemovePartialStages p) = false <->
  countPartialStages p = 0%nat.
Proof.
  unfold countPartialStages. cbn.
  induction p as [| s p IH]; cbn; [tauto |].
  destruct (isPartialStage s); cbn; [split; discriminate | exact IH].
Qed.

(** C8. Stripping the partial stages is idempotent, and a pipeline with no
    partial stage is returned unchanged. *)
Theorem detectAndRemovePartialStages_idempotent (p : list PipeSegment) :
  ps_pipeline (detectAndRemovePartialStages
                 (ps_pipeline (detectAndRemovePartialStages p))) =
  ps_pipeline (detectAndRemovePartialStages p) /\
  (countPartialStages p = 0%nat ->
   ps_pipeline (detectAndRemovePartialStages p) = p).
Proof.
  split.
  - apply filter_not_partial_idempotent.
  - apply filter_not_partial_clean.
Qed.

(** The theorem at a pipeline of one [reduce] stage. *)
Lemma detectAndRemovePartialStages_idempotent_witness :
  countPartialStages [Sample.groupByCarrier] = 0%nat /\
  ps_pipeline (detectAndRemovePartialStages [Sample.groupByCarrier]) =
  [Sample.groupByCarrier].
Proof.
  split.
  - reflexivity.
  - apply (proj2 (detectAndRemovePartialStages_idempotent
                    [Sample.groupByCarrier])).
    reflexivity.
Defined.

(** ** Numeric literals *)

Section NumericLiterals.

Import ExprNumber.

Lemma pow2_positive (p : positive) :
  exists d : positive, (2 ^ Zpos p)%Z = Zpos d.
Proof.
  assert (Hp : (0 < 2 ^ Zpos p)%Z) by (apply Z.pow_pos_nonneg; lia).
  destruct (2 ^ Zpos p)%Z as [| d | d]; try lia. now exists d.
Qed.

Lemma value_nonneg_exponent (a e : Z) :
  (0 <= e)%Z ->
  (inject_Z a * Qpower (inject_Z 2) e == inject_Z (a * 2 ^ e))%Q.
Proof.
  intros He. rewrite inject_Z_mult.
  rewrite Zpower_Qpower by exact He. reflexivity.
Qed.

Lemma value_neg_exponent (a : Z) (p d : positive) :
  (2 ^ Zpos p)%Z = Zpos d ->
  (inject_Z a * Qpower (inject_Z 2) (Zneg p) == a # d)%Q.
Proof.
  intros Hd.
  change (Zneg p) with (- Zpos p)%Z.
  rewrite Qpower_opp.
  rewrite <- Zpower_Qpower by lia.
  rewrite Hd. unfold Qeq, Qmult, Qinv, inject_Z; cbn. lia.
Qed.

(** [Number.isInteger] holds exactly of the finite values without a
    fractional part. *)
Lemma isInteger_isWhole (v : spec_float) :
  isInteger v = true <-> isWhole v.
Proof.
  unfold isWhole.
  destruct v as [s | s | | s m e]; cbn.
  - split; [intros _ | reflexivity].
    exists (inject_Z 0), 0%Z. split; reflexivity.
  - split; [discriminate | intros (q & z & E & _); discriminate].
  - split; [discriminate | intros (q & z & E & _); discriminate].
  - set (a := if s then Zneg m else Zpos m).
    destruct e as [| e | e]; cbn [Z.leb Z.compare].
    + split; [intros _ | reflexivity].
      eexists; exists a. split; [reflexivity |].
      rewrite value_nonneg_exponent by lia. now rewrite Z.mul_1_r.
    + split; [intros _ | reflexivity].
      eexists; exists (a * 2 ^ Zpos e)%Z. split; [reflexivity |].
      apply value_nonneg_exponent. lia.
    + destruct (pow2_positive e) as (d & Hd).
      change (- Zneg e)%Z with (Zpos e). rewrite Hd.
      rewrite Z.eqb_eq.
      split.
      * intros Hm. apply Z.mod_divide in Hm; [| lia].
        destruct Hm as (k & Hk).
        eexists; exists (if s then - k else k)%Z. split; [reflexivity |].
        rewrite (@value_neg_exponent a e d Hd).
        unfold Qeq, inject_Z; cbn. subst a. destruct s; lia.
      * intros (q & z & E & Hq). injection E as <-.
        rewrite (@value_neg_exponent a e d Hd) in Hq.
        unfold Qeq, inject_Z in Hq; cbn in Hq.
        apply Z.mod_divide; [lia |].
        exists (if s then - z else z)%Z. subst a. destruct s; lia.
Qed.

Variable ExprValue : Type.
Variable literalExprValue : LiteralOptions -> ExprValue.

(** C9. The literal's text is parsed as a number.  When the parse yields
    NaN the literal is a plain [number], without a sub-kind, and nothing is
    raised; otherwise it is an [integer] when the parsed value has no
    fractional part and a [float] when it has one (or is infinite).  The
    text "3" is an integer, "3.5" a float and "abc" a plain number. *)
Theorem constantExpression_classifies :
  (forall n : string,
     isNaN (Number n) = true ->
     constantExpression literalExprValue n =
     literalExprValue {| lo_dataType := {| numberType := None |};
                         lo_value := numberLiteral n |}) /\
  (forall n : string,
     isNaN (Number n) = false -> isWhole (Number n) ->
     constantExpression literalExprValue n =
     literalExprValue {| lo_dataType := {| numberType := Some integer |};
                         lo_value := numberLiteral n |}) /\
  (forall n : string,
     isNaN (Number n) = false -> ~ isWhole (Number n) ->
     constantExpression literalExprValue n =
     literalExprValue {| lo_dataType := {| numberType := Some float |};
                         lo_value := numberLiteral n |}) /\
  constantExpression literalExprValue "3" =
  literalExprValue {| lo_dataType := {| numberType := Some integer |};
                      lo_value := numberLiteral "3" |} /\
  constantExpression literalExprValue "3.5" =
  literalExprValue {| lo_dataType := {| numberType := Some float |};
                      lo_value := numberLiteral "3.5" |} /\
  constantExpression literalExprValue "abc" =
  literalExprValue {| lo_dataType := {| numberType := None |};
                      lo_value := numberLiteral "abc" |}.
Proof.
  repeat split.
  - intros n E. unfold constantExpression. now rewrite E.
  - intros n E W. unfold constantExpression. rewrite E.
    apply isInteger_isWhole in W. now rewrite W.
  - intros n E W. unfold constantExpression. rewrite E.
    destruct (isInteger (Number n)) eqn:I; [| reflexivity].
    apply isInteger_isWhole in I. contradiction.
Qed.

End NumericLiterals.

(** The theorem at the literal "42": it parses to a whole number and is an
    integer. *)
Lemma constantExpression_classifies_witness :
  ExprNumber.constantExpression (fun o => o) "42" =
  {| ExprNumber.lo_dataType :=
       {| ExprNumber.numberType := Some ExprNumber.integer |};
     ExprNumber.lo_value := ExprNumber.numberLiteral "42" |}.
Proof.
  apply (proj1 (proj2 (constantExpression_classifies (fun o => o))) "42").
  - reflexivity.
  - eexists. exists 42%Z. split; [reflexivity | vm_compute; reflexivity].
Defined.

(** ** The view resolver and the nest resolver *)

Section ResolverFacts.

Variable FieldSpace : Type.
Variable StructDef : Type.
Variable QOPDesc : Type.
Variable H : Host FieldSpace StructDef QOPDesc.

Lemma getPipeline_step (fuel : nat) (this : TurtleDecl QOPDesc) (fs : FieldSpace) :
  getPipeline H (S fuel) this fs =
  (modelPipe <- extendedPipeline H (getQueryFieldDef H fuel) this fs ;;
   appended <- appendOwnClauses H this fs modelPipe ;;
   trailingRefinement H this fs appended).
Proof. reflexivity. Qed.

Lemma getFieldDef_step (fuel : nat) (this : TurtleDecl QOPDesc) (fs : FieldSpace) :
  getFieldDef H (S fuel) this fs =
  (pipe <- getPipeline H fuel this fs ;; finishFieldDef this pipe).
Proof. reflexivity. Qed.

Lemma trailingRefinement_extending (this : TurtleDecl QOPDesc)
    (fs : FieldSpace) (appended : list PipeSegment) (tn : FieldReference) :
  turtleName this = Some tn ->
  trailingRefinement H this fs appended = ret {| pipeline := appended |}.
Proof.
  intros E. unfold trailingRefinement. rewrite E.
  destruct (refinements this) as [[| q qs] |]; reflexivity.
Qed.

(** C1, as the code has it. When the declaration extends a named view
    that is reached through a join (a reference of more than one segment
    that resolves to a query field), the resolver logs "Cannot use view
    from join" on the reference and then goes on as for a local view: it
    fetches the definition of the view found and, when that is a view,
    refines its pipeline and takes the result as the base; when it is
    not, the base is empty and "Expected ... to be a query" is logged. *)
Theorem getPipeline_view_from_join (fuel : nat) (this : TurtleDecl QOPDesc)
    (fs : FieldSpace) (tn : FieldReference)
    (found : SpaceEntry FieldSpace StructDef QOPDesc) (st : State) :
  turtleName this = Some tn ->
  getField H tn fs = LookupFound found ->
  isQueryField found = true ->
  (1 < List.length (list_ tn))%nat ->
  getPipeline H (S fuel) this fs st =
  (log (fr_location tn) "Cannot use view from join" ;;;
   headDef <- getQueryFieldDef H fuel found fs ;;
   modelPipe <- match isTurtle headDef with
                | Some t =>
                    newPipe <- refinePipeline H this fs (turtleAsPipeline t) ;;
                    match td_annotation t with
                    | Some a => extendNote H this (Build_Annotation (Some a) [])
                    | None => ret tt
                    end ;;;
                    ret (pipeline newPipe)
                | None =>
                    log (location this)
                      ("Expected '" ++ toString tn ++ "' to be a query") ;;;
                    ret []
                end ;;
   appended <- appendOwnClauses H this fs modelPipe ;;
   ret {| pipeline := appended |}) st.
Proof.
  intros Etn Efound Eq Hlen.
  apply Nat.ltb_lt in Hlen.
  rewrite getPipeline_step. unfold extendedPipeline.
  rewrite Etn, Efound.
  assert (Etr : forall appended,
             trailingRefinement H this fs appended =
             ret {| pipeline := appended |})
    by (intros; eapply trailingRefinement_extending; eassumption).
  generalize (getQueryFieldDef H fuel). intros gq.
  destruct found; try discriminate; rewrite Hlen;
    unfold bind, log, ret.
  all: destruct (gq _ fs _) as [headDef st1 | f st1]; [| reflexivity].
  all: destruct (isTurtle headDef) as [t |].
  all: try (destruct (refinePipeline H this fs (turtleAsPipeline t) st1)
              as [newPipe st2 | f st2]; [| reflexivity];
            destruct (td_annotation t);
            unfold extendNote, bind, getNote, setNote; cbn).
  all: match goal with
       | |- context [appendOwnClauses ?h ?d ?f ?p ?s] =>
           destruct (appendOwnClauses h d f p s)
       end.
  all: try rewrite Etr; reflexivity.
Qed.

(** C5. When the extended name resolves to a column field, the scalar-lens
    experiment is enabled and the field's type is not [struct], the
    resolver builds the one-stage pipeline made of a [reduce] stage over
    exactly that field, refines it, and goes on with the result as the
    base; the resolver itself logs nothing, so no "Expected ... to be a
    query" diagnostic is emitted. *)
Theorem getPipeline_scalar_lens (fuel : nat) (this : TurtleDecl QOPDesc)
    (fs : FieldSpace) (tn : FieldReference) (def : FieldDef StructDef)
    (st : State) :
  turtleName this = Some tn ->
  getField H tn fs = LookupFound (ColumnSpaceField def) ->
  enabled "scalar_lenses" st = true ->
  fieldDefType def <> "struct" ->
  extendedPipeline H (getQueryFieldDef H fuel) this fs st =
  (newPipe <- refinePipeline H this fs
     {| pipeline :=
          [Build_PipeSegment reduce [QueryFieldName (refString tn)]] |} ;;
   ret (pipeline newPipe)) st /\
  getPipeline H (S fuel) this fs st =
  (newPipe <- refinePipeline H this fs
     {| pipeline :=
          [Build_PipeSegment reduce [QueryFieldName (refString tn)]] |} ;;
   appended <- appendOwnClauses H this fs (pipeline newPipe) ;;
   ret {| pipeline := appended |}) st.
Proof.
  intros Etn Efound Elens Hstruct.
  assert (Etype : negb (String.eqb (fieldDefType def) "struct") = true).
  { destruct (String.eqb_spec (fieldDefType def) "struct");
      [contradiction | reflexivity]. }
  assert (Ehead :
    extendedPipeline H (getQueryFieldDef H fuel) this fs st =
    (newPipe <- refinePipeline H this fs
       {| pipeline :=
            [Build_PipeSegment reduce [QueryFieldName (refString tn)]] |} ;;
     ret (pipeline newPipe)) st).
  { unfold extendedPipeline. rewrite Etn, Efound.
    unfold bind, inExperiment, ret. rewrite Elens, Etype. cbn.
    destruct (refinePipeline H this fs _ st); reflexivity. }
  split; [exact Ehead |].
  rewrite getPipeline_step.
  unfold bind at 1. rewrite Ehead.
  unfold bind, ret.
  destruct (refinePipeline H this fs _ st) as [newPipe st1 | f st1];
    [| reflexivity].
  destruct (appendOwnClauses H this fs (pipeline newPipe) st1);
    [| reflexivity].
  now rewrite (trailingRefinement_extending this fs _ Etn).
Qed.

(** C6. The trailing refinement is applied exactly when the declaration
    carries a non-empty list of refinement clauses and extends no named
    view: then the result is the refinement of the declaration's own
    appended clauses.  Without refinement clauses the result is the
    appended clauses alone, and when a named view is extended the result
    is the assembled pipeline, without a trailing refinement pass. *)
Theorem getPipeline_trailing_refinement (fuel : nat)
    (this : TurtleDecl QOPDesc) (fs : FieldSpace) (st : State) :
  (forall q qs,
     refinements this = Some (q :: qs) -> turtleName this = None ->
     getPipeline H (S fuel) this fs st =
     (appended <- appendOps H this fs [] ;;
      refined <- refinePipeline H this fs {| pipeline := appended |} ;;
      ret {| pipeline := pipeline refined |}) st) /\
  (refinements this = None \/ refinements this = Some [] ->
   turtleName this = None ->
   getPipeline H (S fuel) this fs st =
   (appended <- appendOps H this fs [] ;;
    ret {| pipeline := appended |}) st) /\
  (forall tn,
     turtleName this = Some tn ->
     getPipeline H (S fuel) this fs st =
     (modelPipe <- extendedPipeline H (getQueryFieldDef H fuel) this fs ;;
      appended <- appendOwnClauses H this fs modelPipe ;;
      ret {| pipeline := appended |}) st).
Proof.
  rewrite getPipeline_step.
  repeat split.
  - intros q qs Er Etn.
    unfold extendedPipeline, appendOwnClauses, trailingRefinement.
    rewrite Etn, Er. unfold bind, ret.
    destruct (appendOps H this fs [] st); reflexivity.
  - intros Er Etn.
    unfold extendedPipeline, appendOwnClauses, trailingRefinement.
    rewrite Etn. unfold bind, ret.
    destruct (appendOps H this fs [] st); [| reflexivity].
    destruct Er as [Er | Er]; rewrite Er; reflexivity.
  - intros tn Etn. unfold bind.
    destruct (extendedPipeline H (getQueryFieldDef H fuel) this fs st)
      as [modelPipe st1 | f st1]; [| reflexivity].
    destruct (appendOwnClauses H this fs modelPipe st1); [| reflexivity].
    now rewrite (trailingRefinement_extending this fs _ Etn).
Qed.

(** C7. Once the pipeline of a view is resolved, [getFieldDef] returns a
    view in either case: when partial stages are detected it logs "Can't
    determine view type (...)" and returns the view with the cleaned
    pipeline; when none is detected it returns the view with the pipeline
    as assembled and logs nothing. *)
Theorem getFieldDef_partial_stages (fuel : nat) (this : TurtleDecl QOPDesc)
    (fs : FieldSpace) (st : State) (pipe : Pipeline) (st1 : State) :
  getPipeline H fuel this fs st = Returns pipe st1 ->
  getFieldDef H (S fuel) this fs st =
  if hasPartials (detectAndRemovePartialStages (pipeline pipe)) then
    Returns
      (Build_TurtleDef (name this) None
         (ps_pipeline (detectAndRemovePartialStages (pipeline pipe)))
         (notes st1 (oid this)) (location this))
      (addDiagnostic st1 (Log (location this)
         "Can't determine view type (`group_by` / `aggregate` / `nest`, `project`, `index`)"))
  else
    Returns
      (Build_TurtleDef (name this) None (pipeline pipe)
         (notes st1 (oid this)) (location this))
      st1.
Proof.
  intros Epipe. rewrite getFieldDef_step.
  unfold bind. rewrite Epipe.
  unfold finishFieldDef, bind, getNote.
  destruct (hasPartials (detectAndRemovePartialStages (pipeline pipe)));
    reflexivity.
Qed.

(** C3, as the code has it. In a query space, registering a
    bare-reference nest whose reference has more than one segment and does
    not resolve to a leaf atomic field logs "Cannot nest view from join"
    and registers nothing, whatever the experiments enabled. *)
Theorem makeEntry_view_from_join (fuel : nat) (this : NestReference)
    (fs : DynamicSpace FieldSpace StructDef QOPDesc) (st st1 : State) :
  isQuerySpace fs = true ->
  (1 < List.length (list_ (nr_name this)))%nat ->
  atomicLeaf H fuel this fs st = Returns None st1 ->
  makeEntry H fuel this fs st =
  Returns fs (addDiagnostic st1
    (Log (nr_location this) "Cannot nest view from join")).
Proof.
  intros Eq Hlen Eleaf. apply Nat.ltb_lt in Hlen.
  unfold makeEntry. rewrite Eq. unfold bind. rewrite Eleaf, Hlen.
  reflexivity.
Qed.

(** C4. In a query space, when the reference of a bare-reference nest
    resolves in the input space to a leaf atomic field, [makeEntry] hands
    to the registry a view whose pipeline is exactly one [reduce] stage
    holding just that field (named by its alias, or else its name, and
    read through the reference), and the view is registered under that
    name when the name is free.  No experiment is consulted: this holds in
    every state. *)
Theorem makeEntry_atomic_leaf (fuel : nat) (this : NestReference)
    (fs : DynamicSpace FieldSpace StructDef QOPDesc) (a : AtomicFieldDef)
    (st : State) :
  isQuerySpace fs = true ->
  getField H (nr_name this) (inputSpace fs) =
  LookupFound (ColumnSpaceField (AtomicField a)) ->
  let n := match af_as a with Some x => x | None => af_name a end in
  let t :=
    Build_TurtleDef n None
      [Build_PipeSegment reduce
         [QueryFieldAtomic
            {| af_type := af_type a; af_name := n; af_as := None;
               af_expressionType := af_expressionType a;
               af_e := Some [FieldFragment (refString (nr_name this))] |}]]
      None None in
  makeEntry H fuel this fs st =
  newEntry fs n (nr_location this) (QueryFieldStruct (self fs) t) st /\
  (entry fs n = None ->
   makeEntry H fuel this fs st =
   Returns {| isQuerySpace := true; self := self fs;
              inputSpace := inputSpace fs;
              entries := entries fs ++ [(n, QueryFieldStruct (self fs) t)] |}
           st).
Proof.
  intros Eq Efound n t.
  assert (Emk : makeEntry H fuel this fs st =
                newEntry fs n (nr_location this)
                  (QueryFieldStruct (self fs) t) st).
  { unfold makeEntry, atomicLeaf. rewrite Eq, Efound. reflexivity. }
  split; [exact Emk |].
  intros Efree. rewrite Emk. unfold newEntry. rewrite Efree, Eq.
  reflexivity.
Qed.

End ResolverFacts.


(** ** The theorems on the sample compilation unit *)

(** The theorem at [view: v is join_field.by_carrier]. *)
Lemma getPipeline_view_from_join_witness :
  getPipeline Sample.host 2 Sample.joinedView 0 Sample.lensOff =
  Returns {| pipeline := [Sample.groupByCarrier] |}
    (addDiagnostic Sample.lensOff (Log (Some 7) "Cannot use view from join")).
Proof.
  exact (@getPipeline_view_from_join _ _ _ Sample.host 1 Sample.joinedView 0
           (Sample.reference ["join_field"; "by_carrier"] 7)
           (QueryFieldStruct 1 Sample.by_carrier) Sample.lensOff
           eq_refl eq_refl eq_refl (le_n 2)).
Defined.

(** C1, as stated, fails: [view: v is join_field.by_carrier] is reached
    through a join, the diagnostic is logged, and the base is the pipeline of
    the joined view, not the empty pipeline. *)
Lemma getPipeline_join_base_counterexample :
  turtleName Sample.joinedView =
    Some (Sample.reference ["join_field"; "by_carrier"] 7) /\
  (1 < List.length (list_ (Sample.reference ["join_field"; "by_carrier"] 7)))%nat /\
  getField Sample.host (Sample.reference ["join_field"; "by_carrier"] 7) 0 =
    LookupFound (QueryFieldStruct 1 Sample.by_carrier) /\
  extendedPipeline Sample.host (getQueryFieldDef Sample.host 1)
    Sample.joinedView 0 Sample.lensOff =
  Returns (td_pipeline Sample.by_carrier)
    (addDiagnostic Sample.lensOff (Log (Some 7) "Cannot use view from join")) /\
  td_pipeline Sample.by_carrier <> [] /\
  returned (getPipeline Sample.host 2 Sample.joinedView 0 Sample.lensOff) =
  Some {| pipeline := td_pipeline Sample.by_carrier |}.
Proof.
  repeat split; try (cbn; lia). discriminate.
Qed.

(** The theorem at [view: a is amount] with the experiment on. *)
Lemma getPipeline_scalar_lens_witness :
  getPipeline Sample.host 1 Sample.lensView 0 Sample.lensOn =
  Returns {| pipeline := [Build_PipeSegment reduce [QueryFieldName "amount"]] |}
    Sample.lensOn.
Proof.
  apply (proj2 (@getPipeline_scalar_lens _ _ _ Sample.host 0 Sample.lensView 0
                  (Sample.reference ["amount"] 9)
                  (AtomicField Sample.amount) Sample.lensOn
                  eq_refl eq_refl eq_refl
                  ltac:(cbn; discriminate))).
Defined.

(** The theorem at a view with refinement clauses and no extended view. *)
Lemma getPipeline_trailing_refinement_witness :
  getPipeline Sample.host 1 Sample.refinedView 0 Sample.lensOff =
  Returns {| pipeline := [Sample.groupByCarrier; Sample.limitOnly] |}
    Sample.lensOff.
Proof.
  exact (proj1 (@getPipeline_trailing_refinement _ _ _ Sample.host 0
                  Sample.refinedView 0 Sample.lensOff)
           Sample.limitOnly [] eq_refl eq_refl).
Defined.

(** The theorem at the same view, whose refinement leaves a partial
    stage. *)
Lemma getFieldDef_partial_stages_witness :
  getFieldDef Sample.host 2 Sample.refinedView 0 Sample.lensOff =
  Returns
    (Build_TurtleDef "r" None [Sample.groupByCarrier] None (Some 11))
    (addDiagnostic Sample.lensOff (Log (Some 11)
       "Can't determine view type (`group_by` / `aggregate` / `nest`, `project`, `index`)")).
Proof.
  exact (@getFieldDef_partial_stages _ _ _ Sample.host 1 Sample.refinedView 0
           Sample.lensOff
           {| pipeline := [Sample.groupByCarrier; Sample.limitOnly] |}
           Sample.lensOff eq_refl).
Defined.

(** The theorem at [nest: join_field.by_carrier]. *)
Lemma makeEntry_view_from_join_witness :
  makeEntry Sample.host 1 Sample.nestJoinedView Sample.querySpace Sample.lensOn =
  Returns Sample.querySpace
    (addDiagnostic Sample.lensOn
       (Log (Some 22) "Cannot nest view from join")).
Proof.
  exact (@makeEntry_view_from_join _ _ _ Sample.host 1 Sample.nestJoinedView
           Sample.querySpace Sample.lensOn Sample.lensOn
           eq_refl (le_n 2) eq_refl).
Defined.

(** C3, as stated, fails: [nest: join_field.amount] crosses a join and
    resolves to a leaf field; with the experiment off and with it on, the
    nest is registered and no diagnostic is logged. *)
Lemma makeEntry_joined_leaf_counterexample :
  (1 < List.length (list_ (nr_name Sample.nestJoinedAmount)))%nat /\
  isQuerySpace Sample.querySpace = true /\
  diagnosticsOf
    (makeEntry Sample.host 1 Sample.nestJoinedAmount Sample.querySpace
       Sample.lensOff) = [] /\
  diagnosticsOf
    (makeEntry Sample.host 1 Sample.nestJoinedAmount Sample.querySpace
       Sample.lensOn) = [] /\
  option_map (fun fs => List.map fst (entries fs))
    (returned
       (makeEntry Sample.host 1 Sample.nestJoinedAmount Sample.querySpace
          Sample.lensOff)) = Some ["amount"].
Proof.
  repeat split. cbn. lia.
Qed.

(** The theorem at [nest: amount] in an empty query space, with the
    experiment off. *)
Lemma makeEntry_atomic_leaf_witness :
  makeEntry Sample.host 1 Sample.nestAmount Sample.querySpace Sample.lensOff =
  Returns
    {| isQuerySpace := true; self := 2; inputSpace := 0;
       entries :=
         [("amount",
           QueryFieldStruct 2
             (Build_TurtleDef "amount" None
                [Build_PipeSegment reduce
                   [QueryFieldAtomic
                      {| af_type := "number"; af_name := "amount";
                         af_as := None; af_expressionType := None;
                         af_e := Some [FieldFragment "amount"] |}]]
                None None))] |}
    Sample.lensOff.
Proof.
  exact (proj2 (@makeEntry_atomic_leaf _ _ _ Sample.host 1 Sample.nestAmount
                  Sample.querySpace Sample.amount Sample.lensOff
                  eq_refl eq_refl)
           eq_refl).
Defined.

(* ================================================================== *)
(** * Further properties of the resolver *)
(* ================================================================== *)

Section ResolverMore.

Variable FieldSpace : Type.
Variable StructDef : Type.
Variable QOPDesc : Type.
Variable H : Host FieldSpace StructDef QOPDesc.

Lemma getQueryFieldDef_step (fuel : nat)
    (found : SpaceEntry FieldSpace StructDef QOPDesc) (fs : FieldSpace) :
  getQueryFieldDef H (S fuel) found fs =
  match found with
  | ViewField _ turtle renameAs =>
      def <- getFieldDef H fuel turtle fs ;;
      ret (Some (QueryFieldTurtle (renamed renameAs def)))
  | QueryFieldStruct _ turtleDef => ret (Some (QueryFieldTurtle turtleDef))
  | _ => ret None
  end.
Proof. reflexivity. Qed.

(** X1. When the name of the extended view does not resolve, the lookup's
    error is logged on the declaration, no "Expected ... to be a query"
    diagnostic is added, the base is empty, and the declaration's own
    clauses are evaluated against the original space; no trailing
    refinement is applied. *)
Theorem getPipeline_unresolved_head (fuel : nat) (this : TurtleDecl QOPDesc)
    (fs : FieldSpace) (tn : FieldReference) (e : string) (st : State) :
  turtleName this = Some tn ->
  getField H tn fs = LookupError e ->
  e <> "" ->
  getPipeline H (S fuel) this fs st =
  (log (location this) e ;;;
   appended <- appendOps H this fs [] ;;
   ret {| pipeline := appended |}) st.
Proof.
  intros Etn Eerr Hne.
  rewrite getPipeline_step. unfold extendedPipeline.
  rewrite Etn, Eerr.
  destruct e as [| c e]; [contradiction |].
  unfold appendOwnClauses, bind, log, ret.
  destruct (appendOps H this fs [] _); [| reflexivity].
  now rewrite (trailingRefinement_extending H this fs _ Etn).
Qed.

Lemma bind_head {A B : Type} (m m' : M A) (k : A -> M B) (st : State) :
  m st = m' st -> bind m k st = bind m' k st.
Proof. intros E. unfold bind. now rewrite E. Qed.

(** The rest of [getPipeline] after an empty base, for a declaration that
    extends a named view. *)
Lemma getPipeline_tail_empty (this : TurtleDecl QOPDesc) (fs : FieldSpace)
    (tn : FieldReference) (st : State) :
  turtleName this = Some tn ->
  (appended <- appendOwnClauses H this fs [] ;;
   trailingRefinement H this fs appended) st =
  (appended <- appendOps H this fs [] ;;
   ret {| pipeline := appended |}) st.
Proof.
  intros Etn. unfold appendOwnClauses, bind, ret.
  destruct (appendOps H this fs [] st); [| reflexivity].
  now rewrite (trailingRefinement_extending H this fs _ Etn).
Qed.

(** X2. When the name of the extended view resolves to something that
    cannot stand for a view (a join, a parameter, a column while the
    scalar-lens experiment is off, or a column of type [struct]), the
    resolver logs "Expected '<name>' to be a query" on the declaration and
    goes on with an empty base. *)
Theorem getPipeline_wrong_type (fuel : nat) (this : TurtleDecl QOPDesc)
    (fs : FieldSpace) (tn : FieldReference)
    (found : SpaceEntry FieldSpace StructDef QOPDesc) (st : State) :
  turtleName this = Some tn ->
  getField H tn fs = LookupFound found ->
  isQueryField found = false ->
  (forall def, found = ColumnSpaceField def ->
     enabled "scalar_lenses" st = false \/ fieldDefType def = "struct") ->
  getPipeline H (S fuel) this fs st =
  (log (location this) ("Expected '" ++ toString tn ++ "' to be a query") ;;;
   appended <- appendOps H this fs [] ;;
   ret {| pipeline := appended |}) st.
Proof.
  intros Etn Efound Eq Hcol.
  rewrite getPipeline_step.
  assert (Ehead :
    extendedPipeline H (getQueryFieldDef H fuel) this fs st =
    (log (location this) ("Expected '" ++ toString tn ++ "' to be a query") ;;;
     ret []) st).
  { unfold extendedPipeline. rewrite Etn, Efound.
    destruct found as [def | def | i t r | i t | p]; try discriminate;
      try reflexivity.
    unfold bind, inExperiment, ret, log.
    destruct (Hcol def eq_refl) as [E | E]; rewrite E;
      [reflexivity | rewrite andb_false_r; reflexivity]. }
  rewrite (bind_head _ _ _ st Ehead).
  unfold bind at 1 2. unfold log, ret.
  apply getPipeline_tail_empty with (tn := tn). exact Etn.
Qed.

(** X3. A view that is extended through a reference of one segment is
    extended silently: no "Cannot use view from join" diagnostic is logged,
    the definition of the view found is fetched and, when it is a view, its
    refined pipeline is the base. *)
Theorem getPipeline_local_view (fuel : nat) (this : TurtleDecl QOPDesc)
    (fs : FieldSpace) (tn : FieldReference)
    (found : SpaceEntry FieldSpace StructDef QOPDesc) (st : State) :
  turtleName this = Some tn ->
  getField H tn fs = LookupFound found ->
  isQueryField found = true ->
  (List.length (list_ tn) <= 1)%nat ->
  getPipeline H (S fuel) this fs st =
  (headDef <- getQueryFieldDef H fuel found fs ;;
   modelPipe <- match isTurtle headDef with
                | Some t =>
                    newPipe <- refinePipeline H this fs (turtleAsPipeline t) ;;
                    match td_annotation t with
                    | Some a => extendNote H this (Build_Annotation (Some a) [])
                    | None => ret tt
                    end ;;;
                    ret (pipeline newPipe)
                | None =>
                    log (location this)
                      ("Expected '" ++ toString tn ++ "' to be a query") ;;;
                    ret []
                end ;;
   appended <- appendOwnClauses H this fs modelPipe ;;
   ret {| pipeline := appended |}) st.
Proof.
  intros Etn Efound Eq Hlen.
  assert (Hltb : (1 <? List.length (list_ tn))%nat = false)
    by (apply Nat.ltb_ge; exact Hlen).
  rewrite getPipeline_step. unfold extendedPipeline.
  rewrite Etn, Efound.
  assert (Etr : forall appended,
             trailingRefinement H this fs appended =
             ret {| pipeline := appended |})
    by (intros; eapply trailingRefinement_extending; eassumption).
  generalize (getQueryFieldDef H fuel). intros gq.
  destruct found; try discriminate; rewrite Hltb;
    unfold bind, log, ret.
  all: destruct (gq _ fs _) as [headDef st1 | f st1]; [| reflexivity].
  all: destruct (isTurtle headDef) as [t |].
  all: try (destruct (refinePipeline H this fs (turtleAsPipeline t) st1)
              as [newPipe st2 | f st2]; [| reflexivity];
            destruct (td_annotation t);
            unfold extendNote, bind, getNote, setNote; cbn).
  all: match goal with
       | |- context [appendOwnClauses ?h ?d ?f ?p ?s] =>
           destruct (appendOwnClauses h d f p s)
       end.
  all: try rewrite Etr; reflexivity.
Qed.

(** X4. When the view that is extended carries an annotation, the note of
    the extending declaration becomes its extension by [inherits: that
    annotation]; the notes of all other declarations, the diagnostics and
    the experiments are as the refinement left them.  When the extended view
    carries no annotation, the state is as the refinement left it. *)
Theorem extendedPipeline_inherits_annotation
    (getDef : SpaceEntry FieldSpace StructDef QOPDesc -> FieldSpace ->
              M (option QueryFieldDef))
    (this : TurtleDecl QOPDesc) (fs : FieldSpace) (tn : FieldReference)
    (found : SpaceEntry FieldSpace StructDef QOPDesc)
    (t : TurtleDef) (newPipe : Pipeline) (st st1 st2 : State) :
  turtleName this = Some tn ->
  getField H tn fs = LookupFound found ->
  isQueryField found = true ->
  getDef found fs
    (if (1 <? List.length (list_ tn))%nat
     then addDiagnostic st (Log (fr_location tn) "Cannot use view from join")
     else st) = Returns (Some (QueryFieldTurtle t)) st1 ->
  refinePipeline H this fs (turtleAsPipeline t) st1 = Returns newPipe st2 ->
  extendedPipeline H getDef this fs st =
  Returns (pipeline newPipe)
    match td_annotation t with
    | Some a =>
        {| diagnostics := diagnostics st2;
           notes := fun o =>
             if Nat.eqb o (oid this)
             then Some (extendNoteMethod H (notes st2 (oid this))
                          (Build_Annotation (Some a) []))
             else notes st2 o;
           experiments := experiments st2 |}
    | None => st2
    end.
Proof.
  intros Etn Efound Eq Edef Erefine.
  unfold extendedPipeline. rewrite Etn, Efound.
  destruct found; try discriminate;
    unfold bind, log, ret;
    destruct (1 <? List.length (list_ tn))%nat;
    rewrite Edef; cbn; rewrite Erefine;
    destruct (td_annotation t); reflexivity.
Qed.

Lemma count_after_strip (p : list PipeSegment) :
  countPartialStages (filter (fun s => negb (isPartialStage s)) p) = 0%nat.
Proof.
  unfold countPartialStages.
  induction p as [| s p IH]; cbn; [reflexivity |].
  destruct (isPartialStage s) eqn:E; cbn; [exact IH |].
  rewrite E. exact IH.
Qed.

(** X5. Whenever [getFieldDef] returns a view, the view is named after the
    declaration, has no alias, is located at the declaration, carries the
    note the declaration has at that point, and holds no partial stage. *)
Theorem getFieldDef_view_invariants (fuel : nat) (this : TurtleDecl QOPDesc)
    (fs : FieldSpace) (st : State) (t : TurtleDef) (st' : State) :
  getFieldDef H fuel this fs st = Returns t st' ->
  td_name t = name this /\
  td_as t = None /\
  td_location t = location this /\
  td_annotation t = notes st' (oid this) /\
  countPartialStages (td_pipeline t) = 0%nat.
Proof.
  destruct fuel as [| fuel]; [discriminate |].
  rewrite getFieldDef_step. unfold bind.
  destruct (getPipeline H fuel this fs st) as [pipe st1 | f st1];
    [| discriminate].
  unfold finishFieldDef, bind, getNote, log, ret.
  destruct (hasPartials (detectAndRemovePartialStages (pipeline pipe))) eqn:Ep;
    intros E; injection E as <- <-; cbn; repeat split.
  - apply count_after_strip.
  - now apply hasPartials_count.
Qed.

(** X6. Whenever the [getQueryFieldDef] of a view field returns, it returns
    a view named after the field's declaration whose alias is the field's
    new name when it has a non-empty one, and no alias otherwise. *)
Theorem getQueryFieldDef_view_field (fuel : nat) (inSpace : FieldSpace)
    (turtle : TurtleDecl QOPDesc) (renameAs : option string)
    (fs : FieldSpace) (st : State) (d : option QueryFieldDef) (st' : State) :
  getQueryFieldDef H fuel (ViewField inSpace turtle renameAs) fs st =
  Returns d st' ->
  exists def : TurtleDef,
    d = Some (QueryFieldTurtle def) /\
    td_name def = name turtle /\
    td_as def = truthy renameAs /\
    td_location def = location turtle /\
    countPartialStages (td_pipeline def) = 0%nat.
Proof.
  destruct fuel as [| fuel]; [discriminate |].
  rewrite getQueryFieldDef_step. unfold bind, ret.
  destruct (getFieldDef H fuel turtle fs st) as [def st1 | f st1] eqn:Edef;
    [| discriminate].
  intros E. injection E as <- <-.
  destruct (getFieldDef_view_invariants _ _ _ _ Edef)
    as (En & Ea & El & _ & Ec).
  exists (renamed renameAs def). split; [reflexivity |].
  unfold renamed. destruct (truthy renameAs) as [a |].
  - destruct def; cbn in *. repeat split; assumption.
  - repeat split; assumption.
Qed.

(** X8. Registering a nest of any of the three shapes in a space that is
    not a query space never returns: the call does nothing but build the
    internal error "Unexpected namespace for nest" on the node and throw it.
    Nothing is looked up, nothing is declared as a nest and nothing is
    registered. *)
Theorem nest_outside_query_space
    (declare : TurtleDecl QOPDesc ->
               DynamicSpace FieldSpace StructDef QOPDesc -> M unit)
    (fs : DynamicSpace FieldSpace StructDef QOPDesc) (st : State) :
  isQuerySpace fs = false ->
  (forall fuel this,
     makeEntry H fuel this fs st =
     (error <- internalError H (nr_location this)
                 "Unexpected namespace for nest" ;;
      throw error) st /\
     returned (makeEntry H fuel this fs st) = None) /\
  (forall this,
     NestRefinement_makeEntry H declare this fs st =
     (error <- internalError H (location this)
                 "Unexpected namespace for nest" ;;
      throw error) st /\
     returned (NestRefinement_makeEntry H declare this fs st) = None) /\
  (forall this,
     NestDefinition_makeEntry H declare this fs st =
     (error <- internalError H (location this)
                 "Unexpected namespace for nest" ;;
      throw error) st /\
     returned (NestDefinition_makeEntry H declare this fs st) = None).
Proof.
  intros E.
  assert (Hnone : forall at_,
            returned ((error <- internalError H at_
                                  "Unexpected namespace for nest" ;;
                       @throw (DynamicSpace FieldSpace StructDef QOPDesc) error)
                        st) = None).
  { intros at_. unfold bind, throw.
    destruct (internalError H at_ "Unexpected namespace for nest" st);
      reflexivity. }
  repeat split; intros;
    unfold makeEntry, NestRefinement_makeEntry, NestDefinition_makeEntry,
      Nest_makeEntry; rewrite E; try reflexivity; apply Hnone.
Qed.

(** X9. In a query space, a bare-reference nest of one segment whose
    reference does not resolve, or resolves to a join, to a wrapped view or
    to a parameter, is handed as it is to the registration of a plain field
    reference: [makeEntry] itself logs nothing, the lookup's error
    included. *)
Theorem makeEntry_delegates (fuel : nat) (this : NestReference)
    (fs : DynamicSpace FieldSpace StructDef QOPDesc) (st : State) :
  isQuerySpace fs = true ->
  (List.length (list_ (nr_name this)) <= 1)%nat ->
  match getField H (nr_name this) (inputSpace fs) with
  | LookupError _ => True
  | LookupFound (StructSpaceField _) => True
  | LookupFound (QueryFieldStruct _ _) => True
  | LookupFound (ParamEntry _) => True
  | LookupFound _ => False
  end ->
  makeEntry H fuel this fs st = FieldReference_makeEntry H this fs st.
Proof.
  intros Eq Hlen Hlook.
  assert (Hltb : (1 <? List.length (list_ (nr_name this)))%nat = false)
    by (apply Nat.ltb_ge; exact Hlen).
  unfold makeEntry, atomicLeaf. rewrite Eq.
  destruct (getField H (nr_name this) (inputSpace fs)) as [found | e].
  - destruct found; try contradiction;
      cbv beta iota delta [bind ret fieldDef isSpaceField isAtomicField];
      rewrite Hltb; reflexivity.
  - cbv beta iota delta [bind ret]. rewrite Hltb. reflexivity.
Qed.

End ResolverMore.

(* ================================================================== *)
(** * Objects *)
(* ================================================================== *)

Section ObjectFacts.

Variable V : Type.

Lemma get_set_same (o : JsObject.t V) (k : string) (v : V) :
  JsObject.get (JsObject.set o k v) k = Some v.
Proof.
  induction o as [| [k' v'] o IH]; cbn.
  - now rewrite String.eqb_refl.
  - destruct (String.eqb k' k) eqn:E; cbn; rewrite E; [reflexivity | exact IH].
Qed.

Lemma get_set_other (o : JsObject.t V) (k k' : string) (v : V) :
  k' <> k ->
  JsObject.get (JsObject.set o k v) k' = JsObject.get o k'.
Proof.
  intros N. induction o as [| [k0 v0] o IH]; cbn.
  - destruct (String.eqb_spec k k'); [congruence | reflexivity].
  - destruct (String.eqb_spec k0 k) as [-> | Nk]; cbn.
    + destruct (String.eqb_spec k k'); [congruence | reflexivity].
    + destruct (String.eqb k0 k'); [reflexivity | exact IH].
Qed.

Lemma get_none_keys (o : JsObject.t V) (k : string) :
  JsObject.get o k = None <-> ~ In k (JsObject.keys o).
Proof.
  induction o as [| [k' v'] o IH]; cbn.
  - tauto.
  - destruct (String.eqb_spec k' k) as [-> | N].
    + split; [discriminate | intros C; exfalso; apply C; now left].
    + rewrite IH. split; [intros C [E | I]; [congruence | tauto] | tauto].
Qed.

Lemma set_fresh (o : JsObject.t V) (k : string) (v : V) :
  ~ In k (JsObject.keys o) -> JsObject.set o k v = o ++ [(k, v)].
Proof.
  induction o as [| [k' v'] o IH]; cbn; [reflexivity |].
  intros N. destruct (String.eqb_spec k' k) as [-> | Nk].
  - exfalso. apply N. now left.
  - rewrite IH; [reflexivity | tauto].
Qed.

Lemma keys_set (o : JsObject.t V) (k : string) (v : V) :
  forall k', In k' (JsObject.keys (JsObject.set o k v)) <->
             In k' (JsObject.keys o) \/ k' = k.
Proof.
  induction o as [| [k0 v0] o IH]; intros k'; cbn.
  - intuition.
  - destruct (String.eqb_spec k0 k) as [-> | Nk]; cbn.
    + intuition.
    + rewrite IH. intuition.
Qed.

Lemma NoDup_keys_set (o : JsObject.t V) (k : string) (v : V) :
  NoDup (JsObject.keys o) -> NoDup (JsObject.keys (JsObject.set o k v)).
Proof.
  induction o as [| [k0 v0] o IH]; cbn; intros ND.
  - constructor; [intros [] | constructor].
  - inversion ND as [| ? ? Hn Hd]; subst.
    destruct (String.eqb_spec k0 k) as [-> | Nk]; cbn.
    + now constructor.
    + constructor; [| now apply IH].
      intros I. apply keys_set in I. destruct I as [I | E]; [tauto | congruence].
Qed.

(** Writing a list of items with distinct names into an object that has
    none of the names adds them at the end, in order. *)
Lemma fold_set_fresh (X : Type) (key : X -> string) (val : X -> V)
    (items : list X) (acc : JsObject.t V) :
  NoDup (List.map key items) ->
  (forall x, In x items -> ~ In (key x) (JsObject.keys acc)) ->
  fold_left (fun o x => JsObject.set o (key x) (val x)) items acc =
  acc ++ List.map (fun x => (key x, val x)) items.
Proof.
  revert acc. induction items as [| x items IH]; intros acc ND Hfresh; cbn.
  - now rewrite app_nil_r.
  - inversion ND as [| ? ? Hn Hd]; subst.
    rewrite set_fresh by (apply Hfresh; now left).
    rewrite IH; [now rewrite <- app_assoc | exact Hd |].
    intros y Hy I. unfold JsObject.keys in I.
    rewrite map_app, in_app_iff in I. cbn in I.
    destruct I as [I | [E | []]].
    + apply (Hfresh y); [now right | exact I].
    + apply Hn. rewrite E. now apply in_map.
Qed.

Lemma find_append (X : Type) (f : X -> bool) (l1 l2 : list X) :
  find f (l1 ++ l2) =
  match find f l1 with
  | Some x => Some x
  | None => find f l2
  end.
Proof.
  induction l1 as [| x l1 IH]; cbn; [reflexivity |].
  destruct (f x); [reflexivity | exact IH].
Qed.

(** What a sequence of writes leaves under a name: the value of the last
    write to that name, or what was there before. *)
Lemma get_fold_set (X : Type) (key : X -> string) (val : X -> V)
    (items : list X) (acc : JsObject.t V) (k : string) :
  JsObject.get
    (fold_left (fun o x => JsObject.set o (key x) (val x)) items acc) k =
  match find (fun x => String.eqb (key x) k) (rev items) with
  | Some x => Some (val x)
  | None => JsObject.get acc k
  end.
Proof.
  revert acc. induction items as [| x items IH]; intros acc; cbn;
    [reflexivity |].
  rewrite IH. rewrite find_append.
  destruct (find (fun x0 => String.eqb (key x0) k) (rev items));
    [reflexivity |].
  cbn. destruct (String.eqb_spec (key x) k) as [<- | N].
  - apply get_set_same.
  - apply get_set_other. congruence.
Qed.

Lemma keys_fold_set (X : Type) (key : X -> string) (val : X -> V)
    (items : list X) (acc : JsObject.t V) :
  NoDup (JsObject.keys acc) ->
  NoDup (JsObject.keys
           (fold_left (fun o x => JsObject.set o (key x) (val x)) items acc)) /\
  forall k,
    In k (JsObject.keys
            (fold_left (fun o x => JsObject.set o (key x) (val x)) items acc))
    <-> In k (JsObject.keys acc) \/ In k (List.map key items).
Proof.
  revert acc. induction items as [| x items IH]; intros acc ND; cbn.
  - split; [exact ND | intuition].
  - destruct (IH (JsObject.set acc (key x) (val x))
                (NoDup_keys_set acc (key x) (val x) ND)) as (IH1 & IH2).
    split; [exact IH1 |].
    intros k. rewrite IH2, keys_set. intuition.
Qed.

Variable kindOf : V -> JsObject.ValueKind.

(** Writes under names other than ["__proto__"] define properties and leave
    the prototype alone. *)
Lemma fold_write_ordinary (X : Type) (key : X -> string) (val : X -> V)
    (items : list X) (acc : JsObject.Plain V) :
  ~ In "__proto__" (List.map key items) ->
  fold_left (fun o x => JsObject.write kindOf o (key x) (val x)) items acc =
  {| JsObject.own :=
       fold_left (fun o x => JsObject.set o (key x) (val x)) items
         (JsObject.own acc);
     JsObject.proto := JsObject.proto acc |}.
Proof.
  revert acc. induction items as [| x items IH]; intros acc N; cbn.
  - now destruct acc.
  - cbn in N. rewrite IH by tauto. unfold JsObject.write.
    destruct (String.eqb_spec (key x) "__proto__") as [E | _]; [| reflexivity].
    exfalso. apply N. now left.
Qed.

End ObjectFacts.

(* ================================================================== *)
(** * The Snowflake executor *)
(* ================================================================== *)

Section SnowflakeFacts.

Import Snowflake.

Variable Value : Type.
Variable toLowerCase : string -> string.
Variable kindOf : Value -> JsObject.ValueKind.
Variable inherited : Value -> JsObject.t Value.

Lemma lowered_keys (row : QueryDataRow Value) :
  List.map (fun kv : string * Value => toLowerCase (fst kv)) row =
  List.map toLowerCase (JsObject.keys row).
Proof. unfold JsObject.keys. now rewrite map_map. Qed.

Lemma columnNameToLowerCase_ordinary (row : QueryDataRow Value) :
  ~ In "__proto__" (List.map toLowerCase (JsObject.keys row)) ->
  columnNameToLowerCase toLowerCase kindOf row =
  {| JsObject.own :=
       fold_left
         (fun o kv => JsObject.set o (toLowerCase (fst kv)) (snd kv)) row [];
     JsObject.proto := None |}.
Proof.
  intros N. unfold columnNameToLowerCase.
  rewrite (@fold_write_ordinary Value kindOf (string * Value)
             (fun kv => toLowerCase (fst kv)) (fun kv => snd kv) row
             (JsObject.empty Value)).
  - reflexivity.
  - now rewrite lowered_keys.
Qed.

(** X10. When no two columns of a row have the same lower-cased name and
    none is lower-cased to ["__proto__"], the result has the default
    prototype and, as own properties, the columns of the row one by one, in
    order, each under its lower-cased name. *)
Theorem columnNameToLowerCase_distinct (row : QueryDataRow Value) :
  NoDup (List.map toLowerCase (JsObject.keys row)) ->
  ~ In "__proto__" (List.map toLowerCase (JsObject.keys row)) ->
  columnNameToLowerCase toLowerCase kindOf row =
  {| JsObject.own := List.map (fun kv => (toLowerCase (fst kv), snd kv)) row;
     JsObject.proto := None |}.
Proof.
  intros ND N. rewrite (columnNameToLowerCase_ordinary row N). f_equal.
  rewrite (fold_set_fresh (fun kv : string * Value => toLowerCase (fst kv))
             (fun kv => snd kv) row []).
  - reflexivity.
  - now rewrite lowered_keys.
  - intros x _ [].
Qed.

(** X11. When no column of a row is lower-cased to ["__proto__"], the result
    has the default prototype and holds, as own property under each name,
    the value of the last column of the row whose lower-cased name it is,
    and no own property under any other name; the names of its own
    properties are distinct and are exactly the lower-cased names of the
    row. *)
Theorem columnNameToLowerCase_lookup (row : QueryDataRow Value) :
  ~ In "__proto__" (List.map toLowerCase (JsObject.keys row)) ->
  JsObject.proto (columnNameToLowerCase toLowerCase kindOf row) = None /\
  (forall k,
     JsObject.get
       (JsObject.own (columnNameToLowerCase toLowerCase kindOf row)) k =
     option_map snd
       (find (fun kv => String.eqb (toLowerCase (fst kv)) k) (rev row))) /\
  NoDup (JsObject.keys
           (JsObject.own (columnNameToLowerCase toLowerCase kindOf row))) /\
  (forall k,
     In k (JsObject.keys
             (JsObject.own (columnNameToLowerCase toLowerCase kindOf row))) <->
     In k (List.map toLowerCase (JsObject.keys row))).
Proof.
  intros N. rewrite (columnNameToLowerCase_ordinary row N).
  cbn [JsObject.own JsObject.proto].
  split; [reflexivity |]. repeat split.
  - intros k.
    rewrite (get_fold_set (fun kv : string * Value => toLowerCase (fst kv))
               (fun kv => snd kv) row [] k).
    destruct (find _ (rev row)); reflexivity.
  - apply (keys_fold_set (fun kv : string * Value => toLowerCase (fst kv))
             (fun kv => snd kv) row []). constructor.
  - intros I.
    apply (keys_fold_set (fun kv : string * Value => toLowerCase (fst kv))
             (fun kv => snd kv) row []) in I; [| constructor].
    destruct I as [[] | I]. now rewrite <- lowered_keys.
  - intros I.
    apply (keys_fold_set (fun kv : string * Value => toLowerCase (fst kv))
             (fun kv => snd kv) row []); [constructor |].
    right. now rewrite lowered_keys.
Qed.


Lemma dataOf_app (a b : list (Callback Value)) :
  dataOf (a ++ b) = dataOf a ++ dataOf b.
Proof. unfold dataOf. apply flat_map_app. Qed.

Lemma countOnEnd_app (a b : list (Callback Value)) :
  countOnEnd (a ++ b) = (countOnEnd a + countOnEnd b)%Z.
Proof.
  unfold countOnEnd. rewrite filter_app, length_app. lia.
Qed.

Lemma countRelease_app (a b : list (Callback Value)) :
  countRelease (a ++ b) = (countRelease a + countRelease b)%Z.
Proof.
  unfold countRelease. rewrite filter_app, length_app. lia.
Qed.

(** X13. The row limit does not stop the delivery of rows: whatever the
    options, [onData] receives every row the stream emits, lower-cased, in
    order. *)
Theorem stream_delivers_every_row (options : option RunSQLOptions)
    (events : list (StreamEvent Value)) :
  dataOf (streamCalls toLowerCase kindOf options events) =
  List.map (columnNameToLowerCase toLowerCase kindOf) (rowsOf events).
Proof.
  unfold streamCalls, dataOf. generalize 0%Z as index.
  induction events as [| ev events IH]; intros index; cbn; [reflexivity |].
  destruct ev as [e | row |]; cbn.
  - apply IH.
  - destruct (limitReached options (index + 1)); cbn; now rewrite IH.
  - apply IH.
Qed.

Lemma streamSnowflake_data (options : option RunSQLOptions)
    (index : Z) (row : QueryDataRow Value) (events : list (StreamEvent Value)) :
  streamSnowflake toLowerCase kindOf options index (DataEvent row :: events) =
  (OnData (columnNameToLowerCase toLowerCase kindOf row) ::
   (if limitReached options (index + 1) then [OnEnd Value] else [])) ++
  streamSnowflake toLowerCase kindOf options (index + 1) events.
Proof. reflexivity. Qed.

Lemma streamSnowflake_end (options : option RunSQLOptions)
    (index : Z) (events : list (StreamEvent Value)) :
  streamSnowflake toLowerCase kindOf options index (EndEvent Value :: events) =
  [OnEnd Value; PoolRelease Value] ++
  streamSnowflake toLowerCase kindOf options index events.
Proof. reflexivity. Qed.

Lemma stream_counts (limit : Z) (events : list (StreamEvent Value))
    (index : Z) :
  countOnEnd
    (streamSnowflake toLowerCase kindOf (Some {| rowLimit := Some limit |})
       index events) =
    (countEnds events +
     Z.max 0 (index + Z.of_nat (List.length (rowsOf events))
              - Z.max limit (index + 1) + 1))%Z /\
  countRelease
    (streamSnowflake toLowerCase kindOf (Some {| rowLimit := Some limit |})
       index events) = countEnds events.
Proof.
  revert index. induction events as [| ev events IH]; intros index.
  - cbn. split; lia.
  - destruct (IH index) as (IHe & IHr).
    destruct (IH (index + 1)%Z) as (IHe1 & IHr1).
    destruct ev as [e | row |].
    + split; [exact IHe | exact IHr].
    + rewrite streamSnowflake_data.
      rewrite countOnEnd_app, countRelease_app, IHe1, IHr1.
      assert (En : Z.of_nat (List.length (rowsOf (DataEvent row :: events))) =
                   (Z.of_nat (List.length (rowsOf events)) + 1)%Z).
      { unfold rowsOf. cbn [flat_map app List.length]. lia. }
      rewrite En.
      assert (Ec : countEnds (DataEvent row :: events) = countEnds events)
        by reflexivity.
      rewrite Ec.
      unfold limitReached; cbn [rowLimit].
      destruct (Z.leb_spec limit (index + 1)).
      * change (countOnEnd [OnData (columnNameToLowerCase toLowerCase kindOf row);
                            OnEnd Value]) with 1%Z.
        change (countRelease [OnData (columnNameToLowerCase toLowerCase kindOf row);
                              OnEnd Value]) with 0%Z.
        split; lia.
      * change (countOnEnd [OnData (columnNameToLowerCase toLowerCase kindOf row)])
          with 0%Z.
        change (countRelease [OnData (columnNameToLowerCase toLowerCase kindOf row)])
          with 0%Z.
        split; lia.
    + rewrite streamSnowflake_end.
      rewrite countOnEnd_app, countRelease_app, IHe, IHr.
      assert (En : rowsOf (EndEvent Value :: events) = rowsOf events)
        by reflexivity.
      rewrite En.
      assert (Ec : countEnds (EndEvent Value :: events) =
                   (countEnds events + 1)%Z).
      { unfold countEnds. cbn [filter List.length]. lia. }
      rewrite Ec.
      change (countOnEnd [OnEnd Value; PoolRelease Value]) with 1%Z.
      change (countRelease [OnEnd Value; PoolRelease Value]) with 1%Z.
      split; lia.
Qed.

(** X14. With a row limit, [onEnd] is signalled once for every row from the
    [limit]-th on (from the first when the limit is below one) and once
    more for every end of the stream, while the connection is released to
    the pool only at the ends of the stream, not when the limit is
    reached. *)
Theorem stream_row_limit (limit : Z) (events : list (StreamEvent Value)) :
  let n := Z.of_nat (List.length (rowsOf events)) in
  let calls :=
    streamCalls toLowerCase kindOf (Some {| rowLimit := Some limit |}) events in
  countOnEnd calls =
    (countEnds events + Z.max 0 (n - Z.max limit 1 + 1))%Z /\
  countRelease calls = countEnds events.
Proof.
  cbn zeta. unfold streamCalls.
  destruct (stream_counts limit events 0) as (E1 & E2).
  split; [rewrite E1; f_equal; f_equal; lia | exact E2].
Qed.

(** X22. The completion callback leaves the promise pending exactly when it
    carries neither an error nor rows; an error rejects the promise even
    when rows come with it; rows without an error resolve it with as many
    rows, each with lower-cased column names. *)
Theorem complete_settles (err : option string)
    (rows : option (list (QueryDataRow Value))) :
  (complete toLowerCase kindOf err rows = Connection.Pending <->
   err = None /\ rows = None) /\
  (forall e, err = Some e ->
     complete toLowerCase kindOf err rows = Connection.Rejected e) /\
  (forall rs, err = None -> rows = Some rs ->
     exists out,
       complete toLowerCase kindOf err rows = Connection.Resolved out /\
       List.length out = List.length rs /\
       forall i r, nth_error rs i = Some r ->
         nth_error out i = Some (columnNameToLowerCase toLowerCase kindOf r)).
Proof.
  repeat split.
  - destruct err; [discriminate |]. reflexivity.
  - destruct err; [discriminate |]. destruct rows; [discriminate | reflexivity].
  - intros (-> & ->). reflexivity.
  - intros e ->. reflexivity.
  - intros rs -> ->. eexists. split; [reflexivity |].
    split; [apply length_map |].
    intros i r E. now rewrite nth_error_map, E.
Qed.

Variable truthyValue : Value -> bool.
Variable VBool : bool -> Value.
Variable VNumber : Z -> Value.

Lemma find_rev_get (o : JsObject.t Value) (k : string) :
  NoDup (JsObject.keys o) ->
  option_map snd (find (fun kv => String.eqb (fst kv) k) (rev o)) =
  JsObject.get o k.
Proof.
  induction o as [| [k0 v0] o IH]; cbn; intros ND; [reflexivity |].
  inversion ND as [| ? ? Hn Hd]; subst.
  rewrite find_append. specialize (IH Hd).
  destruct (find (fun kv => String.eqb (fst kv) k) (rev o)) as [[k1 v1] |] eqn:F.
  - cbn in IH. destruct (String.eqb_spec k0 k) as [-> | N]; [| exact IH].
    exfalso. apply Hn. symmetry in IH.
    assert (G : JsObject.get o k <> None) by congruence.
    destruct (in_dec string_dec k (JsObject.keys o)) as [I | NI]; [exact I |].
    apply get_none_keys in NI. contradiction.
  - cbn in IH. cbn. destruct (String.eqb k0 k); [reflexivity | exact IH].
Qed.

Lemma get_assign (target source : JsObject.t Value) (k : string) :
  NoDup (JsObject.keys source) ->
  JsObject.get (JsObject.assign target source) k =
  match JsObject.get source k with
  | Some v => Some v
  | None => JsObject.get target k
  end.
Proof.
  intros ND. unfold JsObject.assign.
  rewrite (get_fold_set (fun kv : string * Value => fst kv)
             (fun kv => snd kv) source target k).
  rewrite <- (@find_rev_get source k ND).
  destruct (find _ (rev source)); reflexivity.
Qed.

Lemma options_inversion (sys : System Value)
    (options : option ConnectionConfigFile) (opts : Table Value) :
  getConnectionOptionsFromToml truthyValue VBool VNumber sys options =
  Options opts ->
  exists connection account username,
    readsTable sys options connection /\
    JsObject.get (withUserName connection) "account" = Some account /\
    userName connection = Some username /\
    truthyValue account = true /\
    truthyValue username = true /\
    opts =
    JsObject.assign
      (JsObject.set
         (JsObject.set (defaultConnectionOptions VBool VNumber)
            "account" account)
         "username" username)
      (withUserName connection).
Proof.
  unfold getConnectionOptionsFromToml, readsTable.
  fold (tomlConnectionName options).
  destruct (configLocation sys options) as [m | location]; [discriminate |].
  destruct (existsSync sys location) eqn:Ex; cbn; [| discriminate].
  destruct (readFileSync sys location) as [e | text] eqn:Er; [discriminate |].
  destruct (tomlParse sys text) as [e | connections] eqn:Ep; [discriminate |].
  destruct (JsObject.get connections (tomlConnectionName options))
    as [connection |] eqn:Eg; [| discriminate].
  destruct (JsObject.get (withUserName connection) "account")
    as [account |] eqn:Ea; [| discriminate].
  destruct (userName connection) as [username |] eqn:Eu; [| discriminate].
  destruct (truthyValue account) eqn:Ta; [| discriminate].
  destruct (truthyValue username) eqn:Tu; [| discriminate].
  cbn. intros E. injection E as <-.
  exists connection, account, username.
  repeat split; try assumption.
  exists location, text, connections. repeat split; assumption.
Qed.

Lemma get_withUserName (connection : Table Value) (k : string) :
  JsObject.get (withUserName connection) k =
  if String.eqb k "username" then userName connection
  else JsObject.get connection k.
Proof.
  unfold withUserName.
  destruct (String.eqb_spec k "username") as [-> | N].
  - destruct (userName connection) as [u |] eqn:Eu.
    + apply get_set_same.
    + unfold userName in Eu.
      destruct (JsObject.get connection "username"); [discriminate | reflexivity].
  - destruct (userName connection) as [u |]; [| reflexivity].
    now apply get_set_other.
Qed.

Lemma NoDup_withUserName (connection : Table Value) :
  NoDup (JsObject.keys connection) ->
  NoDup (JsObject.keys (withUserName connection)).
Proof.
  intros ND. unfold withUserName.
  destruct (userName connection); [now apply NoDup_keys_set | exact ND].
Qed.

(** X15. The options returned are those of the table read from the file,
    with the user name taken from [username] or else from [user], completed
    by the executor's defaults: a setting of the table overrides the
    default of the same name. *)
Theorem getConnectionOptionsFromToml_settings (sys : System Value)
    (options : option ConnectionConfigFile) (opts : Table Value) :
  parsesObjects sys ->
  getConnectionOptionsFromToml truthyValue VBool VNumber sys options =
  Options opts ->
  exists connection,
    readsTable sys options connection /\
    forall k,
      JsObject.get opts k =
      match (if String.eqb k "username" then userName connection
             else JsObject.get connection k) with
      | Some v => Some v
      | None => JsObject.get (defaultConnectionOptions VBool VNumber) k
      end.
Proof.
  intros Hobj E.
  destruct (options_inversion _ _ E)
    as (connection & account & username & Hreads & Ea & Eu & _ & _ & ->).
  exists connection. split; [exact Hreads |].
  assert (ND : NoDup (JsObject.keys connection)).
  { destruct Hreads as (location & text & connections & _ & _ & _ & Ep & Eg).
    exact (Hobj _ _ _ _ Ep Eg). }
  intros k. rewrite get_assign by (now apply NoDup_withUserName).
  rewrite get_withUserName.
  destruct (String.eqb_spec k "username") as [-> | Nu].
  - now rewrite Eu.
  - destruct (JsObject.get connection k) as [v |] eqn:Ek; [reflexivity |].
    rewrite get_set_other by exact Nu.
    assert (Na : k <> "account").
    { intros ->. rewrite get_withUserName in Ea. cbn in Ea. congruence. }
    now rewrite get_set_other by exact Na.
Qed.

(** X16. The options returned always carry an account and a user name that
    are truthy. *)
Theorem getConnectionOptionsFromToml_usable (sys : System Value)
    (options : option ConnectionConfigFile) (opts : Table Value) :
  parsesObjects sys ->
  getConnectionOptionsFromToml truthyValue VBool VNumber sys options =
  Options opts ->
  exists account username,
    JsObject.get opts "account" = Some account /\
    truthyValue account = true /\
    JsObject.get opts "username" = Some username /\
    truthyValue username = true.
Proof.
  intros Hobj E.
  destruct (options_inversion _ _ E)
    as (connection & account & username & Hreads & Ea & Eu & Ta & Tu & ->).
  assert (ND : NoDup (JsObject.keys connection)).
  { destruct Hreads as (location & text & connections & _ & _ & _ & Ep & Eg).
    exact (Hobj _ _ _ _ Ep Eg). }
  exists account, username.
  rewrite !get_assign by (now apply NoDup_withUserName).
  rewrite Ea. rewrite get_withUserName. cbn. rewrite Eu.
  repeat split; assumption.
Qed.

(** X17. With a configuration file path in the options, the environment is
    not consulted: the outcome is the same whatever [HOME] and
    [USERPROFILE] are, an empty path included. *)
Theorem getConnectionOptionsFromToml_explicit_path (sys : System Value)
    (o : ConnectionConfigFile) (path : string) (home profile : option string) :
  config_file_path o = Some path ->
  getConnectionOptionsFromToml truthyValue VBool VNumber
    {| HOME := home; USERPROFILE := profile; pathJoin := pathJoin sys;
       existsSync := existsSync sys; readFileSync := readFileSync sys;
       tomlParse := tomlParse sys |} (Some o) =
  getConnectionOptionsFromToml truthyValue VBool VNumber sys (Some o).
Proof.
  intros E. unfold getConnectionOptionsFromToml, configLocation.
  rewrite E. reflexivity.
Qed.

End SnowflakeFacts.

(* ================================================================== *)
(** * Blank literals, parameters, connections and charts *)
(* ================================================================== *)

Lemma trimStart_blank (s : string) :
  blank s = true -> ExprNumber.trimStart s = EmptyString.
Proof.
  induction s as [| c s IH]; cbn; [reflexivity |].
  destruct (ExprNumber.isWhiteSpace c); [exact IH | discriminate].
Qed.

(** X23. A literal whose text is empty or holds white space only parses to
    zero: it is classified as an integer, not as a plain number. *)
Theorem constantExpression_blank (ExprValue : Type)
    (literalExprValue : ExprNumber.LiteralOptions -> ExprValue) (n : string) :
  blank n = true ->
  ExprNumber.constantExpression literalExprValue n =
  literalExprValue
    {| ExprNumber.lo_dataType :=
         {| ExprNumber.numberType := Some ExprNumber.integer |};
       ExprNumber.lo_value := ExprNumber.numberLiteral n |}.
Proof.
  intros B. unfold ExprNumber.constantExpression, ExprNumber.Number,
    ExprNumber.trim.
  rewrite (trimStart_blank n B). reflexivity.
Qed.

(** X18. An abstract parameter never reports an empty data type: it reports
    its declared type when that is present and not empty, and "unknown"
    otherwise.  A defined parameter reports exactly the type of the
    parameter it returns, and every parameter is referred to as a
    "parameter". *)
Theorem typeDesc_parameter_dataType
    (astParameter : HasParameter -> ModelParameter) (p : SpaceParam) :
  refType p = "parameter" /\
  match p with
  | AbstractParameter astParam =>
      dataType (typeDesc p) <> "" /\
      dataType (typeDesc p) =
      match truthy (hp_type astParam) with
      | Some declared => declared
      | None => "unknown"
      end
  | DefinedParameter paramDef =>
      dataType (typeDesc p) = p_type (parameter astParameter p)
  end.
Proof.
  split; [reflexivity |].
  destruct p as [[n [[| c s] |]] | paramDef]; cbn; repeat split; discriminate.
Qed.

(** X19. A connection answers a lookup under its own name, or under no name,
    with itself; under any other name, the empty name included, the lookup
    throws "Unknown Connection: <name>" at once instead of returning a
    promise.  The two lookups behave alike. *)
Theorem lookup_connection (this : Connection.Connection)
    (connectionName : option string) :
  Connection.lookupSchemaReader this connectionName =
  Connection.lookupQueryRunner this connectionName /\
  (connectionName = None \/ connectionName = Some (Connection.name this) ->
   Connection.lookupQueryRunner this connectionName =
   Connection.Normal (Connection.Resolved this)) /\
  (forall n, connectionName = Some n -> n <> Connection.name this ->
   Connection.lookupQueryRunner this connectionName =
   Connection.Thrown ("Unknown Connection: " ++ n)).
Proof.
  unfold Connection.lookupSchemaReader, Connection.lookupQueryRunner,
    Connection.getConnection.
  repeat split.
  - intros [-> | ->]; [reflexivity |]. now rewrite String.eqb_refl.
  - intros n -> N.
    destruct (String.eqb_spec n (Connection.name this));
      [contradiction | reflexivity].
Qed.

Section ChartFacts.

Import ChartRenderer.

Variable Row : Type.
Variable Field : Type.
Variable DataColumn : Type.
Variable PlotValue : Type.
Variable fieldName : Field -> string.
Variable cell : Row -> Field -> DataColumn.
Variable getDataValue : DataColumn -> PlotValue.
Variable kindOf : PlotValue -> JsObject.ValueKind.

(** X20. [mapData] yields one mapped row per row of the data, in order.
    When no field is named ["__proto__"], a mapped row has the default
    prototype and holds, as own property under the name of each field, the
    plotted value of the row's cell for the last field of that name, and no
    own property under any other name. *)
Theorem mapData_rows (data : DataArray Row Field) :
  List.length (mapData fieldName cell getDataValue kindOf data) =
  List.length (rows data) /\
  (~ In "__proto__" (List.map fieldName (intrinsicFields data)) ->
   forall i row,
     nth_error (rows data) i = Some row ->
     exists mapped,
       nth_error (mapData fieldName cell getDataValue kindOf data) i =
       Some mapped /\
       JsObject.proto mapped = None /\
       forall k,
         JsObject.get (JsObject.own mapped) k =
         option_map (fun field => getDataValue (cell row field))
           (find (fun field => String.eqb (fieldName field) k)
              (rev (intrinsicFields data)))).
Proof.
  unfold mapData. split; [apply length_map |].
  intros N i row E. eexists. split; [| split].
  - rewrite nth_error_map, E. reflexivity.
  - rewrite (@fold_write_ordinary PlotValue kindOf Field fieldName
               (fun field => getDataValue (cell row field))
               (intrinsicFields data) (JsObject.empty PlotValue) N).
    reflexivity.
  - intros k.
    rewrite (@fold_write_ordinary PlotValue kindOf Field fieldName
               (fun field => getDataValue (cell row field))
               (intrinsicFields data) (JsObject.empty PlotValue) N).
    cbn [JsObject.own JsObject.empty].
    rewrite (get_fold_set fieldName
               (fun field => getDataValue (cell row field))
               (intrinsicFields data) [] k).
    destruct (find _ (rev (intrinsicFields data))); reflexivity.
Qed.

(** X21. The size of a chart is never empty: it is the size of the options
    when that is present and not empty, else that of the style defaults
    when that is present and not empty, else "medium". *)
Theorem size_default (styleDefaults : StyleDefaults)
    (options : option ChartRenderOptions) :
  size styleDefaults options <> "" /\
  size styleDefaults options =
  match truthy (match options with Some o => cro_size o | None => None end),
        truthy (sd_size styleDefaults) with
  | Some s, _ => s
  | None, Some s => s
  | None, None => "medium"
  end.
Proof.
  unfold size.
  destruct options as [[[[| c s] |]] |];
    destruct styleDefaults as [[[| c' s'] |]]; cbn;
    split; try reflexivity; discriminate.
Qed.

End ChartFacts.

(* ================================================================== *)
(** * The further properties on sample inputs *)
(* ================================================================== *)

(** X1 at [view: u is nowhere]. *)
Lemma getPipeline_unresolved_head_witness :
  getPipeline Sample.host 1 Sample2.unknownView 0 Sample.lensOff =
  Returns {| pipeline := [Sample.groupByCarrier] |}
    (addDiagnostic Sample.lensOff (Log (Some 30) "'nowhere' is not defined")).
Proof.
  exact (@getPipeline_unresolved_head _ _ _ Sample.host 0 Sample2.unknownView 0
           (Sample.reference ["nowhere"] 31) "'nowhere' is not defined"
           Sample.lensOff eq_refl eq_refl
           ltac:(discriminate)).
Defined.

(** X2 at [view: a is amount] with the experiment off. *)
Lemma getPipeline_wrong_type_witness :
  getPipeline Sample.host 1 Sample.lensView 0 Sample.lensOff =
  Returns {| pipeline := [] |}
    (addDiagnostic Sample.lensOff
       (Log (Some 8) "Expected 'amount' to be a query")).
Proof.
  exact (@getPipeline_wrong_type _ _ _ Sample.host 0 Sample.lensView 0
           (Sample.reference ["amount"] 9)
           (ColumnSpaceField (AtomicField Sample.amount)) Sample.lensOff
           eq_refl eq_refl eq_refl (fun _ _ => or_introl eq_refl)).
Defined.

(** X3 at a view extending [by_carrier]. *)
Lemma getPipeline_local_view_witness :
  getPipeline Sample.host 2 Sample.extendingView 0 Sample.lensOff =
  Returns {| pipeline := [Sample.groupByCarrier; Sample.limitOnly] |}
    Sample.lensOff.
Proof.
  exact (@getPipeline_local_view _ _ _ Sample.host 1 Sample.extendingView 0
           (Sample.reference ["by_carrier"] 14)
           (QueryFieldStruct 0 Sample.by_carrier) Sample.lensOff
           eq_refl eq_refl eq_refl (le_n 1)).
Defined.

(** X4 at [view: n is noted]. *)
Lemma extendedPipeline_inherits_annotation_witness :
  extendedPipeline Sample2.host (getQueryFieldDef Sample2.host 1)
    Sample2.notedExtension 0 Sample.lensOff =
  Returns [Sample.groupByCarrier]
    {| diagnostics := [];
       notes := fun o =>
         if Nat.eqb o 7
         then Some (Build_Annotation (Some Sample2.barChart) [])
         else None;
       experiments := [] |}.
Proof.
  exact (@extendedPipeline_inherits_annotation _ _ _ Sample2.host
           (getQueryFieldDef Sample2.host 1) Sample2.notedExtension 0
           (Sample.reference ["noted"] 35)
           (QueryFieldStruct 0 Sample2.noted) Sample2.noted
           {| pipeline := [Sample.groupByCarrier] |}
           Sample.lensOff Sample.lensOff Sample.lensOff
           eq_refl eq_refl eq_refl eq_refl eq_refl).
Defined.

(** X5 at the view with a partial stage. *)
Lemma getFieldDef_view_invariants_witness :
  td_name (Build_TurtleDef "r" None [Sample.groupByCarrier] None (Some 11)) =
    name Sample.refinedView /\
  td_as (Build_TurtleDef "r" None [Sample.groupByCarrier] None (Some 11)) =
    None /\
  td_location (Build_TurtleDef "r" None [Sample.groupByCarrier] None (Some 11)) =
    location Sample.refinedView /\
  td_annotation (Build_TurtleDef "r" None [Sample.groupByCarrier] None (Some 11)) =
    None /\
  countPartialStages
    (td_pipeline (Build_TurtleDef "r" None [Sample.groupByCarrier] None (Some 11)))
  = 0%nat.
Proof.
  exact (@getFieldDef_view_invariants _ _ _ Sample.host 2 Sample.refinedView 0
           Sample.lensOff
           (Build_TurtleDef "r" None [Sample.groupByCarrier] None (Some 11))
           (addDiagnostic Sample.lensOff (Log (Some 11)
              "Can't determine view type (`group_by` / `aggregate` / `nest`, `project`, `index`)"))
           eq_refl).
Defined.

(** X6 at a renamed view field of the plain view. *)
Lemma getQueryFieldDef_view_field_witness :
  exists def : TurtleDef,
    Some (QueryFieldTurtle
            (Build_TurtleDef "p" (Some "q") [Sample.groupByCarrier] None
               (Some 12))) = Some (QueryFieldTurtle def) /\
    td_name def = name Sample.plainView /\
    td_as def = truthy (Some "q") /\
    td_location def = location Sample.plainView /\
    countPartialStages (td_pipeline def) = 0%nat.
Proof.
  exact (@getQueryFieldDef_view_field _ _ _ Sample.host 3 0 Sample.plainView
           (Some "q") 0 Sample.lensOff
           (Some (QueryFieldTurtle
                    (Build_TurtleDef "p" (Some "q") [Sample.groupByCarrier]
                       None (Some 12))))
           Sample.lensOff eq_refl).
Defined.

(** X8 at a space that is not a query space. *)
Lemma nest_outside_query_space_witness :
  makeEntry Sample.host 1 Sample.nestAmount Sample2.dynamicSpace Sample.lensOff =
  Throws (InternalError "Unexpected namespace for nest")
    (addDiagnostic Sample.lensOff
       (Log (Some 24)
          "INTERNAL ERROR IN TRANSLATION: Unexpected namespace for nest")).
Proof.
  exact (proj1 (proj1 (@nest_outside_query_space _ _ _ Sample.host
                         (fun _ _ => ret tt) Sample2.dynamicSpace
                         Sample.lensOff eq_refl)
                  1%nat Sample.nestAmount)).
Defined.

(** X9 at [nest: join_field]. *)
Lemma makeEntry_delegates_witness :
  makeEntry Sample.host 1 Sample2.nestJoin Sample.querySpace Sample.lensOff =
  Returns Sample.querySpace Sample.lensOff.
Proof.
  exact (@makeEntry_delegates _ _ _ Sample.host 1 Sample2.nestJoin
           Sample.querySpace Sample.lensOff eq_refl (le_n 1) I).
Defined.

(** X10 at a row with the columns [ID] and [Name]. *)
Lemma columnNameToLowerCase_distinct_witness :
  Snowflake.columnNameToLowerCase Sample2.asciiLower Sample2.kindOfSetting
    Sample2.row =
  {| JsObject.own :=
       [("id", Sample2.SNumber 7); ("name", Sample2.SString "ann")];
     JsObject.proto := None |}.
Proof.
  apply (@columnNameToLowerCase_distinct _ Sample2.asciiLower
           Sample2.kindOfSetting Sample2.row).
  - repeat constructor; cbn; intuition discriminate.
  - cbn; intuition discriminate.
Defined.



(** X11 at the same row. *)
Lemma columnNameToLowerCase_lookup_witness :
  JsObject.proto
    (Snowflake.columnNameToLowerCase Sample2.asciiLower Sample2.kindOfSetting
       Sample2.row) = None /\
  (forall k,
     JsObject.get
       (JsObject.own
          (Snowflake.columnNameToLowerCase Sample2.asciiLower
             Sample2.kindOfSetting Sample2.row)) k =
     option_map snd
       (find (fun kv => String.eqb (Sample2.asciiLower (fst kv)) k)
          (rev Sample2.row))) /\
  NoDup (JsObject.keys
           (JsObject.own
              (Snowflake.columnNameToLowerCase Sample2.asciiLower
                 Sample2.kindOfSetting Sample2.row))) /\
  (forall k,
     In k (JsObject.keys
             (JsObject.own
                (Snowflake.columnNameToLowerCase Sample2.asciiLower
                   Sample2.kindOfSetting Sample2.row))) <->
     In k (List.map Sample2.asciiLower (JsObject.keys Sample2.row))).
Proof.
  apply (@columnNameToLowerCase_lookup _ Sample2.asciiLower
           Sample2.kindOfSetting Sample2.row).
  cbn; intuition discriminate.
Defined.


Lemma system_parsesObjects : Snowflake.parsesObjects Sample2.system.
Proof.
  intros text connections n table Ep Eg.
  assert (Ec : connections = [("default", Sample2.defaultTable)])
    by (unfold Sample2.system in Ep; cbn [Snowflake.tomlParse] in Ep;
        congruence).
  subst connections. clear Ep.
  change (JsObject.get [("default", Sample2.defaultTable)] n)
    with (if String.eqb "default" n then Some Sample2.defaultTable
          else @None (Snowflake.Table Sample2.Setting)) in Eg.
  destruct (String.eqb "default" n); [| discriminate Eg].
  inversion Eg; subst; clear Eg.
  repeat constructor; cbn; intuition discriminate.
Qed.

(** X15 at the sample system: the table's [clientSessionKeepAlive]
    overrides the default, and the user name comes from [user]. *)
Lemma getConnectionOptionsFromToml_settings_witness :
  exists connection,
    Snowflake.readsTable Sample2.system None connection /\
    forall k,
      JsObject.get
        [("clientSessionKeepAlive", Sample2.SBool false);
         ("clientSessionKeepAliveHeartbeatFrequency", Sample2.SNumber 900);
         ("account", Sample2.SString "acme");
         ("username", Sample2.SString "ann");
         ("user", Sample2.SString "ann")] k =
      match (if String.eqb k "username" then Snowflake.userName connection
             else JsObject.get connection k) with
      | Some v => Some v
      | None =>
          JsObject.get
            (Snowflake.defaultConnectionOptions Sample2.SBool Sample2.SNumber) k
      end.
Proof.
  exact (@getConnectionOptionsFromToml_settings _ Sample2.truthySetting
           Sample2.SBool Sample2.SNumber Sample2.system None _
           system_parsesObjects eq_refl).
Defined.

(** X16 at the sample system. *)
Lemma getConnectionOptionsFromToml_usable_witness :
  exists account username,
    JsObject.get
      [("clientSessionKeepAlive", Sample2.SBool false);
       ("clientSessionKeepAliveHeartbeatFrequency", Sample2.SNumber 900);
       ("account", Sample2.SString "acme");
       ("username", Sample2.SString "ann");
       ("user", Sample2.SString "ann")] "account" = Some account /\
    Sample2.truthySetting account = true /\
    JsObject.get
      [("clientSessionKeepAlive", Sample2.SBool false);
       ("clientSessionKeepAliveHeartbeatFrequency", Sample2.SNumber 900);
       ("account", Sample2.SString "acme");
       ("username", Sample2.SString "ann");
       ("user", Sample2.SString "ann")] "username" = Some username /\
    Sample2.truthySetting username = true.
Proof.
  exact (@getConnectionOptionsFromToml_usable _ Sample2.truthySetting
           Sample2.SBool Sample2.SNumber Sample2.system None _
           system_parsesObjects eq_refl).
Defined.

(** X17 at the sample system, with no home directory at all. *)
Lemma getConnectionOptionsFromToml_explicit_path_witness :
  Snowflake.getConnectionOptionsFromToml Sample2.truthySetting
    Sample2.SBool Sample2.SNumber
    {| Snowflake.HOME := None; Snowflake.USERPROFILE := None;
       Snowflake.pathJoin := Snowflake.pathJoin Sample2.system;
       Snowflake.existsSync := Snowflake.existsSync Sample2.system;
       Snowflake.readFileSync := Snowflake.readFileSync Sample2.system;
       Snowflake.tomlParse := Snowflake.tomlParse Sample2.system |}
    (Some Sample2.explicitPath) =
  Snowflake.getConnectionOptionsFromToml Sample2.truthySetting
    Sample2.SBool Sample2.SNumber Sample2.system (Some Sample2.explicitPath).
Proof.
  exact (@getConnectionOptionsFromToml_explicit_path _ Sample2.truthySetting
           Sample2.SBool Sample2.SNumber Sample2.system Sample2.explicitPath
           "/home/ann/.snowflake/connections.toml" None None eq_refl).
Defined.

(** X19 at a connection named [duckdb], looked up under another name. *)
Lemma lookup_connection_witness :
  Connection.lookupQueryRunner Sample2.duckdb (Some "bigquery") =
  Connection.Thrown "Unknown Connection: bigquery".
Proof.
  apply (proj2 (proj2 (lookup_connection Sample2.duckdb (Some "bigquery")))
           "bigquery" eq_refl).
  discriminate.
Defined.

(** X20 at a table of two points: the second mapped row. *)
Lemma mapData_rows_witness :
  exists mapped,
    nth_error
      (ChartRenderer.mapData Sample2.pointFieldName Sample2.pointCell
         (fun v => v) Sample2.kindOfZ Sample2.points) 1 = Some mapped /\
    JsObject.proto mapped = None /\
    forall k,
      JsObject.get (JsObject.own mapped) k =
      option_map (fun field => Sample2.pointCell [3; 4]%Z field)
        (find (fun field => String.eqb (Sample2.pointFieldName field) k)
           (rev (ChartRenderer.intrinsicFields Sample2.points))).
Proof.
  apply (proj2 (@mapData_rows _ _ _ _ Sample2.pointFieldName Sample2.pointCell
                  (fun v => v) Sample2.kindOfZ Sample2.points)).
  - cbn; intuition discriminate.
  - reflexivity.
Defined.

(** X22 at a completion with one row and no error. *)
Lemma complete_settles_witness :
  exists out,
    Snowflake.complete Sample2.asciiLower Sample2.kindOfSetting None (Some [Sample2.row]) =
    Connection.Resolved out /\
    List.length out = List.length [Sample2.row] /\
    forall i r, nth_error [Sample2.row] i = Some r ->
      nth_error out i =
      Some (Snowflake.columnNameToLowerCase Sample2.asciiLower Sample2.kindOfSetting r).
Proof.
  exact (proj2 (proj2 (@complete_settles _ Sample2.asciiLower Sample2.kindOfSetting None
                         (Some [Sample2.row])))
           [Sample2.row] eq_refl eq_refl).
Defined.

(** X23 at a text of two spaces. *)
Lemma constantExpression_blank_witness :
  ExprNumber.constantExpression (fun o => o) "  " =
  {| ExprNumber.lo_dataType :=
       {| ExprNumber.numberType := Some ExprNumber.integer |};
     ExprNumber.lo_value := ExprNumber.numberLiteral "  " |}.
Proof.
  exact (@constantExpression_blank _ (fun o => o) "  " eq_refl).
Defined.
